(** * Nutify: the UPS ingestion and aggregation pipeline

    A shallow embedding of [core/db_module.py] (schema derivation, the device
    reader, the [UPSDataCache] aggregation buffer) and of the polling loop of
    [app.py], with the properties of the specification stated against it.

    Conventions of the embedding.
    - A Python [dict] with string keys is a [gmap string _]; where the source
      iterates a dict in insertion order and the order can matter, the dict
      is an insertion-ordered association list ([odict]).
    - A Python [float] is a [pyfloat]: a binary64 number, given as the
      rational it is, or one of the three special values; the two zeros are
      not told apart. An operation gives the binary64 number nearest to its
      exact result, ties to even ([fl]), infinity beyond the range.
    - Where floats are added up inside the interpreter or a library
      ([sum], [DataFrame.mean], [AVG] of SQLite), the order of the additions
      is not fixed by this code and changes the last bit of the result: such
      a sum is a member of the class [Sums].
    - A string is a sequence of ASCII characters, as the output of the UPS
      command is.
    - A [datetime] is an instant (microseconds since the epoch, UTC) together
      with the UTC offset of its [tzinfo]; the configured time zone is a
      function from instants to offsets.
    - Code that can raise is written in a state-and-exception monad: a raise
      keeps the mutations done before it, as in Python.
    - The database, the device and pandas are external; their behaviour is
      written out where the source relies on it. SQLite has no time zones and
      no NaN: a datetime is stored and compared as the text of its wall
      clock, a NaN is stored as NULL. *)

From Stdlib Require Import ZArith QArith Qround Qabs Ascii String List Sorted
  Lia Lqa.
From stdpp Require Import base gmap strings list fin_maps.

Local Open Scope string_scope.
Local Open Scope Z_scope.

(** ** Exceptions and results *)

(** The exception classes the pipeline raises or catches. All of them are
    subclasses of [Exception]. [ExternalError] stands for what the external
    collaborators raise (subprocess, SQLAlchemy, the operating system). *)
Inductive exn : Type :=
  | ValueError
  | TypeError
  | KeyError
  | ZeroDivisionError
  | OverflowError
  | AttributeError
  | UPSConnectionError (msg : string)
  | UPSCommandError (msg : string)
  | UPSDataError (msg : string)
  | ExternalError (msg : string).

Inductive result (A : Type) : Type :=
  | Ok (a : A)
  | Raise (e : exn).
Arguments Ok {A} a.
Arguments Raise {A} e.

(** [str(e)] of an exception. *)
Definition exn_str (e : exn) : string :=
  match e with
  | ValueError => "ValueError"
  | TypeError => "TypeError"
  | KeyError => "KeyError"
  | ZeroDivisionError => "division by zero"
  | OverflowError => "int too large to convert to float"
  | AttributeError => "can't set attribute"
  | UPSConnectionError m | UPSCommandError m | UPSDataError m
  | ExternalError m => m
  end.

(** ** Python numbers *)

Inductive pyfloat : Type :=
  | Finite (q : Q)
  | PosInf
  | NegInf
  | NaN.

(** Nearest integer, ties to even. *)
Definition rint (q : Q) : Z :=
  let f := Qfloor q in
  match Qcompare (q - inject_Z f) (1 # 2) with
  | Lt => f
  | Gt => f + 1
  | Eq => if Z.even f then f else f + 1
  end.

(** *** binary64 *)

(** [2 ^ e] for any integer [e]. *)
Definition pow2 (e : Z) : Q :=
  if 0 <=? e then inject_Z (2 ^ e) else 1 # Z.to_pos (2 ^ (- e)).

(** The integer part of the binary logarithm of a positive rational. *)
Definition ilog2 (a : Q) : Z :=
  let l := Z.log2 (Qnum a) - Z.log2 (Z.pos (Qden a)) in
  if Qle_bool (pow2 l) a then l else l - 1.

(** The binary64 number nearest to a rational, ties to the even
    significand: a significand of 53 bits and an exponent that is at least
    [-1074] (below it the numbers are subnormal and the spacing stays
    [2 ^ -1074]); a result of [2 ^ 1024] or more is an infinity. The value
    is given in lowest terms. *)
Definition fl (q : Q) : pyfloat :=
  match Qcompare q 0 with
  | Eq => Finite 0
  | c =>
      let a := Qabs q in
      let e := Z.max (ilog2 a - 52) (- 1074) in
      let v := (inject_Z (rint (a / pow2 e)) * pow2 e)%Q in
      if Qle_bool (pow2 1024) v then
        match c with Lt => NegInf | _ => PosInf end
      else Finite (Qred (match c with Lt => - v | _ => v end))
  end.

(** [float(z)] of an int that fits. *)
Definition float_of_int (z : Z) : pyfloat := fl (inject_Z z).

(** The hundredth nearest to a rational, ties to even. *)
Definition round2 (q : Q) : Q := Qmake (rint (q * 100)) 100.

(** [round(x, 2)] of Python: the decimal expansion of the float is rounded
    to 2 places, ties to even, and the result is the float nearest to that;
    the special values are returned unchanged. *)
Definition fround2 (x : pyfloat) : pyfloat :=
  match x with
  | Finite q => fl (round2 q)
  | _ => x
  end.

Definition fadd (x y : pyfloat) : pyfloat :=
  match x, y with
  | NaN, _ | _, NaN => NaN
  | PosInf, NegInf | NegInf, PosInf => NaN
  | PosInf, _ | _, PosInf => PosInf
  | NegInf, _ | _, NegInf => NegInf
  | Finite a, Finite b => fl (a + b)
  end.

(** Sign of a finite value as a comparison with zero. *)
Definition qsign (q : Q) : comparison := Qcompare q 0.

Definition inf_times (positive : bool) (q : Q) : pyfloat :=
  match qsign q with
  | Eq => NaN
  | Gt => if positive then PosInf else NegInf
  | Lt => if positive then NegInf else PosInf
  end.

Definition fmul (x y : pyfloat) : pyfloat :=
  match x, y with
  | NaN, _ | _, NaN => NaN
  | PosInf, PosInf | NegInf, NegInf => PosInf
  | PosInf, NegInf | NegInf, PosInf => NegInf
  | PosInf, Finite q | Finite q, PosInf => inf_times true q
  | NegInf, Finite q | Finite q, NegInf => inf_times false q
  | Finite a, Finite b => fl (a * b)
  end.

(** The quotient of two floats as the hardware gives it (numpy; the
    division of Python raises on a zero divisor before it gets there). *)
Definition fdiv (x y : pyfloat) : pyfloat :=
  match x, y with
  | NaN, _ | _, NaN => NaN
  | (PosInf | NegInf), (PosInf | NegInf) => NaN
  | PosInf, Finite b => inf_times true (if Qeq_bool b 0 then 1 else b)
  | NegInf, Finite b => inf_times false (if Qeq_bool b 0 then 1 else b)
  | Finite _, (PosInf | NegInf) => Finite 0
  | Finite a, Finite b =>
      if Qeq_bool b 0 then inf_times true a else fl (a / b)
  end.

(** [x / n] of Python for a float [x] and an int [n]: raises on a zero
    divisor; [n] is converted to a float, which fails for an int beyond the
    range. *)
Definition fdiv_int (x : pyfloat) (n : Z) : result pyfloat :=
  if n =? 0 then Raise ZeroDivisionError
  else match float_of_int n with
       | Finite d => Ok (fdiv x (Finite d))
       | _ => Raise OverflowError
       end.

(** [numpy.rint] *)
Definition frint (x : pyfloat) : pyfloat :=
  match x with
  | Finite q => Finite (inject_Z (rint q))
  | _ => x
  end.

(** [round(2)] of numpy, which is what [Series.round(2)] of pandas calls:
    [rint(x * 100.0) / 100.0], each step in binary64. *)
Definition np_round2 (x : pyfloat) : pyfloat :=
  fdiv (frint (fmul x (Finite 100))) (Finite 100).

(** ** [float(s)] and [int(s)] on strings

    The grammar of the Python language reference, on ASCII input:
<<
      digitpart   ::= digit (["_"] digit)*
      number      ::= [digitpart] "." digitpart | digitpart ["."]
      floatnumber ::= number [("e" | "E") ["+" | "-"] digitpart]
      floatvalue  ::= ["+" | "-"] (floatnumber | "inf" | "infinity" | "nan")
      integer     ::= ["+" | "-"] digitpart
>>
    surrounded by optional whitespace, [inf], [infinity] and [nan] in any
    letter case. [None] is [ValueError]. *)

Definition is_digit (c : ascii) : bool :=
  let n := nat_of_ascii c in ((48 <=? n) && (n <=? 57))%nat.

Definition digit_val (c : ascii) : Z := Z.of_nat (nat_of_ascii c) - 48.

(** The C library's [isspace] in the C locale. *)
Definition is_space (c : ascii) : bool :=
  let n := nat_of_ascii c in (((9 <=? n) && (n <=? 13)) || (n =? 32))%nat.

Definition is_underscore (c : ascii) : bool := (nat_of_ascii c =? 95)%nat.

Fixpoint lstrip (s : list ascii) : list ascii :=
  match s with
  | c :: s' => if is_space c then lstrip s' else s
  | [] => []
  end.

Definition strip (s : list ascii) : list ascii :=
  rev (lstrip (rev (lstrip s))).

(** What follows a digit inside a [digitpart]: more digits, each optionally
    preceded by one underscore. Returns the digits read and the rest. *)
Fixpoint digits_tail (s : list ascii) : list ascii * list ascii :=
  match s with
  | c :: s' =>
      if is_digit c then
        let '(ds, r) := digits_tail s' in (c :: ds, r)
      else if is_underscore c then
        match s' with
        | d :: s'' =>
            if is_digit d then
              let '(ds, r) := digits_tail s'' in (d :: ds, r)
            else ([], s)
        | [] => ([], s)
        end
      else ([], s)
  | [] => ([], [])
  end.

(** The longest [digitpart] at the head of [s], if there is one. *)
Definition digitpart (s : list ascii) : option (list ascii * list ascii) :=
  match s with
  | c :: s' =>
      if is_digit c then
        let '(ds, r) := digits_tail s' in Some (c :: ds, r)
      else None
  | [] => None
  end.

Definition digits_value (ds : list ascii) : Z :=
  fold_left (fun acc c => 10 * acc + digit_val c) ds 0.

(** An optional sign: [true] is a minus sign. *)
Definition sign (s : list ascii) : bool * list ascii :=
  match s with
  | "+"%char :: s' => (false, s')
  | "-"%char :: s' => (true, s')
  | _ => (false, s)
  end.

Definition lower (c : ascii) : ascii :=
  let n := nat_of_ascii c in
  if ((65 <=? n) && (n <=? 90))%nat then ascii_of_nat (n + 32) else c.

Definition is_word (w : string) (s : list ascii) : bool :=
  bool_decide (map lower s = list_ascii_of_string w).

(** [10 ^ e] for any integer [e]. *)
Definition pow10 (e : Z) : Q :=
  if 0 <=? e then inject_Z (10 ^ e) else Qinv (inject_Z (10 ^ (- e))).

(** The exponent part, if any; what is left must be empty. *)
Definition exponent (s : list ascii) : option Z :=
  match s with
  | [] => Some 0
  | c :: s' =>
      if bool_decide (lower c = "e"%char) then
        let '(neg, s'') := sign s' in
        match digitpart s'' with
        | Some (ds, []) =>
            Some (if neg then - digits_value ds else digits_value ds)
        | _ => None
        end
      else None
  end.

(** [number [exponent]]: the value of an unsigned decimal literal. *)
Definition floatnumber (s : list ascii) : option Q :=
  match digitpart s with
  | Some (ip, r) =>
      match r with
      | "."%char :: r' =>
          match digitpart r' with
          | Some (fp, r'') =>
              e ← exponent r'';
              Some (inject_Z (digits_value (ip ++ fp))
                    * pow10 (e - Z.of_nat (length fp)))%Q
          | None =>
              e ← exponent r';
              Some (inject_Z (digits_value ip) * pow10 e)%Q
          end
      | _ =>
          e ← exponent r;
          Some (inject_Z (digits_value ip) * pow10 e)%Q
      end
  | None =>
      match s with
      | "."%char :: r' =>
          match digitpart r' with
          | Some (fp, r'') =>
              e ← exponent r'';
              Some (inject_Z (digits_value fp)
                    * pow10 (e - Z.of_nat (length fp)))%Q
          | None => None
          end
      | _ => None
      end
  end.

Definition fneg (x : pyfloat) : pyfloat :=
  match x with
  | Finite q => Finite (- q)
  | PosInf => NegInf
  | NegInf => PosInf
  | NaN => NaN
  end.

(** [float(s)]: the float nearest to the value of the literal; [None] is
    [ValueError]. *)
Definition py_float (s : string) : option pyfloat :=
  let '(neg, body) := sign (strip (list_ascii_of_string s)) in
  v ← match floatnumber body with
      | Some q => Some (fl q)
      | None =>
          if is_word "inf" body || is_word "infinity" body then Some PosInf
          else if is_word "nan" body then Some NaN
          else None
      end;
  Some (if neg then fneg v else v).

(** [int(s)] in base 10; [None] is [ValueError]. *)
Definition py_int (s : string) : option Z :=
  let '(neg, body) := sign (strip (list_ascii_of_string s)) in
  match digitpart body with
  | Some (ds, []) => Some (if neg then - digits_value ds else digits_value ds)
  | _ => None
  end.

(** A text of ASCII characters. *)
Definition is_ascii (s : string) : bool :=
  forallb (fun c => (nat_of_ascii c <? 128)%nat) (list_ascii_of_string s).

(** ** Python values and dictionaries *)

(** A [datetime]: [instant] is the point in time in microseconds since the
    epoch (UTC); [utcoffset] is the offset of its [tzinfo], in microseconds.
    The fields a program reads ([hour], [minute], [date()]) are those of the
    wall clock [instant + utcoffset]. *)
Record datetime : Type := mkDatetime { instant : Z; utcoffset : Z }.

Inductive pyval : Type :=
  | VInt (z : Z)
  | VFloat (x : pyfloat)
  | VStr (s : string)
  | VDatetime (t : datetime).

(** An insertion-ordered [dict]: keys are unique, [d[k] = v] replaces the
    value of a key that is there and appends a new key at the end. *)
Definition odict (V : Type) : Type := list (string * V).

Fixpoint odict_set {V : Type} (k : string) (v : V) (d : odict V) : odict V :=
  match d with
  | [] => [(k, v)]
  | (k', v') :: d' =>
      if decide (k = k') then (k, v) :: d' else (k', v') :: odict_set k v d'
  end.

Fixpoint odict_get {V : Type} (k : string) (d : odict V) : option V :=
  match d with
  | [] => None
  | (k', v') :: d' => if decide (k = k') then Some v' else odict_get k d'
  end.

Definition odict_mem {V : Type} (k : string) (d : odict V) : bool :=
  bool_decide (is_Some (odict_get k d)).

(** [{k: v for k, v in d.items() if k in fields}] *)
Definition odict_restrict {V : Type} (fields : list string) (d : odict V)
  : odict V :=
  filter (fun kv => kv.1 ∈ fields) d.

(** [key.replace(old, new)] for single characters. *)
Fixpoint replace_char (old new : ascii) (s : string) : string :=
  match s with
  | EmptyString => EmptyString
  | String c s' =>
      String (if Ascii.eqb c old then new else c) (replace_char old new s')
  end.

(** [key.replace('.', '_')]: the NUT name of a variable as a column name. *)
Definition db_key (key : string) : string := replace_char "." "_" key.

(** ** Time

    All durations are in microseconds. *)

Definition SECOND : Z := 1000000.
Definition MINUTE : Z := 60 * SECOND.
Definition HOUR : Z := 60 * MINUTE.
Definition DAY : Z := 24 * HOUR.

Definition wall (d : datetime) : Z := instant d + utcoffset d.

(** [d.replace(...)] that moves the wall clock to [w] and keeps [tzinfo]. *)
Definition with_wall (d : datetime) (w : Z) : datetime :=
  {| instant := w - utcoffset d; utcoffset := utcoffset d |}.

(** [d + timedelta(microseconds=delta)]: wall-clock arithmetic, same
    [tzinfo]. *)
Definition plus_timedelta (d : datetime) (delta : Z) : datetime :=
  {| instant := instant d + delta; utcoffset := utcoffset d |}.

(** [a >= b] and [a < b] on aware datetimes compare the instants. *)
Definition dt_ge (a b : datetime) : bool := instant b <=? instant a.
Definition dt_lt (a b : datetime) : bool := instant a <? instant b.

Definition dt_hour (d : datetime) : Z := (wall d / HOUR) mod 24.
Definition dt_minute (d : datetime) : Z := (wall d / MINUTE) mod 60.
(** [d.date()], as a day number. *)
Definition dt_date (d : datetime) : Z := wall d / DAY.

(** ** Schema: the ORM models *)

Inductive coltype : Type :=
  | Float
  | Integer
  | String255
  | DateTime.

#[global] Instance coltype_eq_dec : EqDecision coltype.
Proof. solve_decision. Defined.

(** A model class. [class_id] tells two class objects apart: every execution
    of a [class] statement makes a new object. *)
Record model : Type := mkModel {
  class_id : nat;
  tablename : string;
  columns : gmap string coltype
}.

Definition STATIC_FIELDS : list string :=
  [ "device.model"; "device.mfr"; "device.serial"; "device.type";
    "device.description"; "device.contact"; "device.location"; "device.part";
    "device.macaddr"; "device.usb_version";
    "ups.model"; "ups.mfr"; "ups.mfr.date"; "ups.serial"; "ups.vendorid";
    "ups.productid"; "ups.firmware"; "ups.firmware.aux"; "ups.type"; "ups.id";
    "ups.display.language"; "ups.contacts";
    "battery.type"; "battery.date"; "battery.mfr.date"; "battery.packs";
    "battery.packs.external"; "battery.protection";
    "driver.name"; "driver.version"; "driver.version.internal";
    "driver.version.data"; "driver.version.usb" ].

Definition DYNAMIC_FIELDS : list string :=
  [ "device.uptime"; "device.count";
    "ups.status"; "ups.alarm"; "ups.time"; "ups.date"; "ups.temperature";
    "ups.load"; "ups.load.high"; "ups.delay.start"; "ups.delay.reboot";
    "ups.delay.shutdown"; "ups.timer.start"; "ups.timer.reboot";
    "ups.timer.shutdown"; "ups.test.interval"; "ups.test.result";
    "ups.test.date"; "ups.display.language"; "ups.efficiency"; "ups.power";
    "ups.power.nominal"; "ups.realpower"; "ups.realpower.nominal";
    "ups.beeper.status"; "ups.watchdog.status"; "ups.start.auto";
    "ups.start.battery"; "ups.start.reboot"; "ups.shutdown";
    "input.voltage"; "input.voltage.maximum"; "input.voltage.minimum";
    "input.voltage.status"; "input.voltage.nominal"; "input.voltage.extended";
    "input.transfer.low"; "input.transfer.high"; "input.sensitivity";
    "input.frequency"; "input.frequency.nominal"; "input.current";
    "input.current.nominal"; "input.realpower"; "input.realpower.nominal";
    "output.voltage"; "output.voltage.nominal"; "output.frequency";
    "output.frequency.nominal"; "output.current"; "output.current.nominal";
    "battery.charge"; "battery.charge.low"; "battery.charge.warning";
    "battery.voltage"; "battery.voltage.nominal"; "battery.current";
    "battery.temperature"; "battery.runtime"; "battery.runtime.low";
    "battery.alarm.threshold";
    "ambient.temperature"; "ambient.humidity"; "ambient.temperature.high";
    "ambient.temperature.low"; "ambient.humidity.high";
    "ambient.humidity.low" ].

(** The type inference the three schema functions share:
<<
      try: float(value) -> Float
      except ValueError:
          try: int(value) -> Integer
          except ValueError: String(255)
>> *)
Definition infer_column (value : string) : coltype :=
  match py_float value with
  | Some _ => Float
  | None =>
      match py_int value with
      | Some _ => Integer
      | None => String255
      end
  end.

(** The body of [get_available_ups_variables] after the device has
    answered. *)
Definition mapped_columns (variables : odict string) : gmap string coltype :=
  fold_left (fun acc kv => <[db_key kv.1 := infer_column kv.2]> acc)
            variables ∅.

(** The class body of [UPSStaticData]. *)
Definition static_columns (variables : odict string) : gmap string coltype :=
  fold_left (fun ns kv => <[db_key kv.1 := infer_column kv.2]> ns)
            variables
            (<["timestamp" := DateTime]> (<["id" := Integer]> ∅)).

(** The variables [create_dynamic_model] builds its class from. *)
Definition dynamic_variables (all_variables : odict string) : odict string :=
  let variables := odict_restrict DYNAMIC_FIELDS all_variables in
  if negb (odict_mem "ups.realpower" variables)
     && odict_mem "ups.load" variables
     && odict_mem "ups.realpower.nominal" variables
  then odict_set "ups.realpower" "0" variables
  else variables.

(** The class body of [UPSDynamicData]. *)
Definition dynamic_columns (variables : odict string) : gmap string coltype :=
  fold_left
    (fun ns kv =>
       if decide (kv.1 = "ups.realpower") then ns
       else <[db_key kv.1 := infer_column kv.2]> ns)
    variables
    (<["ups_realpower_days" := Float]>
       (<["ups_realpower_hrs" := Float]>
          (<["ups_realpower" := Float]>
             (<["timestamp_tz" := DateTime]> (<["id" := Integer]> ∅))))).

(** ** Measurement records *)

(** An instance of [UPSDynamicData]: its attributes that are not [None]. *)
Abbreviation record := (gmap string pyval).

(** The constructor [UPSDynamicData(...)] with keyword arguments [kwargs]:
    the inherited constructor sets them, then [ups_realpower_days] is set to [0.0] if it is [None]. *)
Definition UPSDynamicData_init (kwargs : gmap string pyval) : record :=
  match kwargs !! "ups_realpower_days" with
  | None => <["ups_realpower_days" := VFloat (Finite 0)]> kwargs
  | Some _ => kwargs
  end.

(** Python truth value of a number or string. *)
Definition truthy (v : pyval) : bool :=
  match v with
  | VInt z => negb (z =? 0)
  | VFloat (Finite q) => negb (Qeq_bool q 0)
  | VFloat _ => true
  | VStr s => negb (bool_decide (s = ""))
  | VDatetime _ => true
  end.

(** The [daily_power] property: [self.ups_realpower_days or 0.0]. *)
Definition daily_power (self : record) : pyval :=
  match self !! "ups_realpower_days" with
  | Some v => if truthy v then v else VFloat (Finite 0)
  | None => VFloat (Finite 0)
  end.

(** ** The process state *)

(** An instance of [UPSDataCache]. A buffered sample is the pair of its
    timestamp and the reading; [df] is the pandas frame built from the
    buffer, one row per sample. [last_daily_aggregation] is a date. *)
Record UPSDataCache : Type := mkCache {
  cache_size : Z;
  data : list (datetime * gmap string pyval);
  df : option (list (gmap string pyval));
  next_save_time : option datetime;
  next_hour : option datetime;
  hourly_data : list (option datetime * pyval);
  last_daily_aggregation : option Z
}.

(** [UPSDataCache(size)] *)
Definition UPSDataCache_init (size : Z) : UPSDataCache :=
  {| cache_size := size; data := []; df := None; next_save_time := None;
     next_hour := None; hourly_data := []; last_daily_aggregation := None |}.

Definition set_data (v : list (datetime * gmap string pyval))
  (c : UPSDataCache) : UPSDataCache :=
  mkCache (cache_size c) v (df c) (next_save_time c) (next_hour c)
          (hourly_data c) (last_daily_aggregation c).
Definition set_df (v : option (list (gmap string pyval)))
  (c : UPSDataCache) : UPSDataCache :=
  mkCache (cache_size c) (data c) v (next_save_time c) (next_hour c)
          (hourly_data c) (last_daily_aggregation c).
Definition set_next_save_time (v : option datetime)
  (c : UPSDataCache) : UPSDataCache :=
  mkCache (cache_size c) (data c) (df c) v (next_hour c)
          (hourly_data c) (last_daily_aggregation c).
Definition set_next_hour (v : option datetime)
  (c : UPSDataCache) : UPSDataCache :=
  mkCache (cache_size c) (data c) (df c) (next_save_time c) v
          (hourly_data c) (last_daily_aggregation c).
Definition set_hourly_data (v : list (option datetime * pyval))
  (c : UPSDataCache) : UPSDataCache :=
  mkCache (cache_size c) (data c) (df c) (next_save_time c) (next_hour c)
          v (last_daily_aggregation c).
Definition set_last_daily_aggregation (v : option Z)
  (c : UPSDataCache) : UPSDataCache :=
  mkCache (cache_size c) (data c) (df c) (next_save_time c) (next_hour c)
          (hourly_data c) v.

(** The module globals of [db_module] and what the process has done to the
    outside: [w_queries] counts the invocations of the UPS command,
    [w_dbops] the statements sent to the database, [w_classes] the model
    classes created; [ups_dynamic_data] is the committed content of the
    table of that name. *)
Record world : Type := mkWorld {
  w_queries : nat;
  w_dbops : nat;
  w_classes : nat;
  _ups_host : option string;
  _ups_name : option string;
  _UPSStaticData : option model;
  _UPSDynamicData : option model;
  _UPSData : option model;
  ups_dynamic_data : list record;
  ups_data_cache : UPSDataCache
}.

Definition set_w_queries (v : nat) (w : world) : world :=
  mkWorld v (w_dbops w) (w_classes w) (_ups_host w) (_ups_name w)
          (_UPSStaticData w) (_UPSDynamicData w) (_UPSData w)
          (ups_dynamic_data w) (ups_data_cache w).
Definition set_w_dbops (v : nat) (w : world) : world :=
  mkWorld (w_queries w) v (w_classes w) (_ups_host w) (_ups_name w)
          (_UPSStaticData w) (_UPSDynamicData w) (_UPSData w)
          (ups_dynamic_data w) (ups_data_cache w).
Definition set_w_classes (v : nat) (w : world) : world :=
  mkWorld (w_queries w) (w_dbops w) v (_ups_host w) (_ups_name w)
          (_UPSStaticData w) (_UPSDynamicData w) (_UPSData w)
          (ups_dynamic_data w) (ups_data_cache w).
Definition set_UPSStaticData (v : option model) (w : world) : world :=
  mkWorld (w_queries w) (w_dbops w) (w_classes w) (_ups_host w) (_ups_name w)
          v (_UPSDynamicData w) (_UPSData w)
          (ups_dynamic_data w) (ups_data_cache w).
Definition set_UPSDynamicData (v : option model) (w : world) : world :=
  mkWorld (w_queries w) (w_dbops w) (w_classes w) (_ups_host w) (_ups_name w)
          (_UPSStaticData w) v (_UPSData w)
          (ups_dynamic_data w) (ups_data_cache w).
Definition set_UPSData (v : option model) (w : world) : world :=
  mkWorld (w_queries w) (w_dbops w) (w_classes w) (_ups_host w) (_ups_name w)
          (_UPSStaticData w) (_UPSDynamicData w) v
          (ups_dynamic_data w) (ups_data_cache w).
Definition set_ups_dynamic_data (v : list record) (w : world) : world :=
  mkWorld (w_queries w) (w_dbops w) (w_classes w) (_ups_host w) (_ups_name w)
          (_UPSStaticData w) (_UPSDynamicData w) (_UPSData w)
          v (ups_data_cache w).
Definition set_ups_data_cache (v : UPSDataCache) (w : world) : world :=
  mkWorld (w_queries w) (w_dbops w) (w_classes w) (_ups_host w) (_ups_name w)
          (_UPSStaticData w) (_UPSDynamicData w) (_UPSData w)
          (ups_dynamic_data w) v.

(** [configure_ups(host, name, command, timeout)] *)
Definition configure_ups (host name : string) (w : world) : world :=
  mkWorld (w_queries w) (w_dbops w) (w_classes w) (Some host) (Some name)
          (_UPSStaticData w) (_UPSDynamicData w) (_UPSData w)
          (ups_dynamic_data w) (ups_data_cache w).

(** The state of a process that has just imported the module. *)
Definition initial_world (CACHE_SECONDS : Z) : world :=
  {| w_queries := 0; w_dbops := 0; w_classes := 0;
     _ups_host := None; _ups_name := None;
     _UPSStaticData := None; _UPSDynamicData := None; _UPSData := None;
     ups_dynamic_data := [];
     ups_data_cache := UPSDataCache_init CACHE_SECONDS |}.

(** ** The monad of code that mutates the state and can raise *)

Definition M (A : Type) : Type := world -> result A * world.

#[global] Instance M_ret : MRet M := fun A a w => (Ok a, w).

#[global] Instance M_bind : MBind M := fun A B k m w =>
  match m w with
  | (Ok a, w') => k a w'
  | (Raise e, w') => (Raise e, w')
  end.

Definition raise {A : Type} (e : exn) : M A := fun w => (Raise e, w).

(** [try: body  except Exception as e: handler(e)] *)
Definition try_except {A : Type} (body : M A) (handler : exn -> M A) : M A :=
  fun w =>
    match body w with
    | (Ok a, w') => (Ok a, w')
    | (Raise e, w') => handler e w'
    end.

Definition get_world : M world := fun w => (Ok w, w).
Definition modify (f : world -> world) : M unit := fun w => (Ok tt, f w).
Definition get_cache : M UPSDataCache := fun w => (Ok (ups_data_cache w), w).
Definition modify_cache (f : UPSDataCache -> UPSDataCache) : M unit :=
  modify (fun w => set_ups_data_cache (f (ups_data_cache w)) w).

(** ** Sums computed by the interpreter and the libraries

    The code hands lists of floats to [sum] of Python, to [DataFrame.mean]
    of pandas and to [AVG] of SQLite. Each of them adds the floats in an
    order of its own (from left to right, in pairs or blocks, with a
    compensation term), which depends on the version installed and shows
    in the last bit of the result. The three sums are taken as they are. *)
Class Sums : Type := {
  (** [sum(xs)] of Python for a list of floats that has an element *)
  builtin_sum : list pyfloat -> pyfloat;
  (** the sum numpy makes of a float64 column *)
  numpy_sum : list pyfloat -> pyfloat;
  (** [AVG] of SQLite over values that are not NULL and of which there is
      one at least: a quotient of their sum, a text counting for the number
      it begins with, by their count *)
  sqlite_avg : list pyval -> pyfloat
}.

Section Libraries.

Context {sums : Sums}.

(** *** pandas: the frame of the buffer and its column statistics *)

(** The row of a sample: [{'timestamp': ts, **d}]. *)
Definition df_row (ts : datetime) (d : gmap string pyval) : gmap string pyval :=
  d ∪ {["timestamp" := VDatetime ts]}.

(** The columns of a frame built from a list of dicts: every key of every
    row. *)
Definition df_columns (rows : list (gmap string pyval)) : gset string :=
  ⋃ (dom <$> rows).

(** A cell: a row that lacks the column holds NaN there. *)
Definition df_cell (col : string) (row : gmap string pyval) : pyval :=
  default (VFloat NaN) (row !! col).

Definition df_column (rows : list (gmap string pyval)) (col : string)
  : list pyval :=
  df_cell col <$> rows.

(** An int that fits the int64 dtype. *)
Definition int64 (z : Z) : bool := (- 2 ^ 63 <=? z) && (z <? 2 ^ 63).

(** A cell a numeric column can hold: a float or an int64. The reader
    makes no other int; a larger one is taken to make the column a column
    of objects, as a string does, and the properties below leave such
    samples out. *)
Definition is_number (v : pyval) : bool :=
  match v with
  | VInt z => int64 z
  | VFloat _ => true
  | VStr _ | VDatetime _ => false
  end.

(** [select_dtypes(include=[np.number])]: a column has a numeric dtype when
    all its cells are numbers. *)
Definition is_numeric_col (rows : list (gmap string pyval)) (col : string)
  : bool :=
  forallb is_number (df_column rows col).

Definition to_float (v : pyval) : pyfloat :=
  match v with
  | VInt z => float_of_int z
  | VFloat x => x
  | VStr _ | VDatetime _ => NaN
  end.

Definition is_nan (x : pyfloat) : bool :=
  match x with NaN => true | _ => false end.

(** [Series.mean()] of a numeric column: the cells that are NaN count for
    zero in the sum and are left out of the count; the mean of nothing is
    NaN. *)
Definition series_mean (xs : list pyfloat) : pyfloat :=
  let count := length (List.filter (fun x => negb (is_nan x)) xs) in
  if (count =? 0)%nat then NaN
  else fdiv (numpy_sum ((fun x => if is_nan x then Finite 0 else x) <$> xs))
            (float_of_int (Z.of_nat count)).

(** The body of [calculate_averages] on a frame that has rows. *)
Definition frame_averages (rows : list (gmap string pyval))
  : gmap string pyval :=
  let numeric_cols :=
    filter (fun col => is_numeric_col rows col = true) (df_columns rows) in
  let non_numeric_cols :=
    filter (fun col => is_numeric_col rows col = false) (df_columns rows)
    ∖ {["timestamp"]} in
  let averages : gmap string pyval :=
    set_to_map
      (fun col => (col, VFloat (np_round2 (series_mean
                                             (to_float <$> df_column rows col)))))
      numeric_cols in
  let last_values : gmap string pyval :=
    set_to_map
      (fun col => (col, default (VFloat NaN) (df_cell col <$> last rows)))
      non_numeric_cols in
  last_values ∪ averages.

(** *** The database *)

(** What a query gives for a column of a committed record: a NaN was
    stored as NULL. *)
Definition stored (col : string) (r : record) : option pyval :=
  match r !! col with
  | Some (VFloat NaN) => None
  | v => v
  end.

(** [lo <= timestamp_tz < hi] in a query: the three datetimes are compared
    as the texts of their wall clocks. *)
Definition in_window (lo hi : datetime) (r : record) : bool :=
  match r !! "timestamp_tz" with
  | Some (VDatetime t) => (wall lo <=? wall t) && (wall t <? wall hi)
  | _ => false
  end.

(** A value [sum] of Python can add to a float. *)
Definition is_summand (v : pyval) : bool :=
  match v with
  | VInt _ | VFloat _ => true
  | VStr _ | VDatetime _ => false
  end.

(** [sum(powers)] of Python: strings and datetimes cannot be added to a
    number. *)
Definition py_sum (vs : list pyval) : result pyfloat :=
  if forallb is_summand vs then Ok (builtin_sum (to_float <$> vs))
  else Raise TypeError.

(** [AVG(col)] over rows: NULLs are skipped, no value gives NULL, and so
    does an average that is NaN. *)
Definition sql_avg (col : string) (rs : list record) : option pyfloat :=
  match omap (stored col) rs with
  | [] => None
  | vs => match sqlite_avg vs with
          | NaN => None
          | daily_avg => Some daily_avg
          end
  end.

End Libraries.

(** The loop [variables[key.strip()] = value.strip()] over the output
    lines. *)
Definition variables_of_pairs (pairs : list (string * string)) : odict string :=
  fold_left (fun variables kv => odict_set kv.1 kv.2 variables) pairs [].

Section Pipeline.

(** The outside of the process.
    - [tz]: the UTC offset, in microseconds, of the configured time zone at
      an instant.
    - [upsc]: what the n-th invocation of the UPS command gives: the
      [(key.strip(), value.strip())] pairs of the output lines that have a
      colon, in order, or the exception of [subprocess.run].
    - [db_fault]: the exception, if any, that the n-th database statement
      raises. *)
Context {sums : Sums}.
Variable tz : Z -> Z.
Variable upsc : nat -> result (list (string * string)).
Variable db_fault : nat -> option exn.

(** [d.astimezone(get_configured_timezone())] *)
Definition astimezone (d : datetime) : datetime :=
  {| instant := instant d; utcoffset := tz (instant d) |}.

(** [datetime.now(tz)] when the clock reads [now]. *)
Definition datetime_now (now : Z) : datetime :=
  {| instant := now; utcoffset := tz now |}.

(** *** The device *)

Definition get_available_variables : M (odict string) :=
  fun w =>
    let w' := set_w_queries (S (w_queries w)) w in
    match upsc (w_queries w) with
    | Ok pairs => (Ok (variables_of_pairs pairs), w')
    | Raise e => (Raise e, w')
    end.

(** *** Schema registry *)

Definition get_available_ups_variables : M (gmap string coltype) :=
  variables ← get_available_variables;
  mret (mapped_columns variables).

(** A [class] statement: a new class object. *)
Definition new_class (name : string) (cols : gmap string coltype) : M model :=
  fun w =>
    (Ok {| class_id := w_classes w; tablename := name; columns := cols |},
     set_w_classes (S (w_classes w)) w).

Definition create_static_model : M model :=
  w ← get_world;
  match _UPSStaticData w with
  | Some m => mret m
  | None =>
      all_variables ← get_available_variables;
      let variables := odict_restrict STATIC_FIELDS all_variables in
      UPSStaticData ← new_class "ups_static_data" (static_columns variables);
      modify (set_UPSStaticData (Some UPSStaticData));;
      mret UPSStaticData
  end.

Definition create_dynamic_model : M model :=
  w ← get_world;
  match _UPSDynamicData w with
  | Some m => mret m
  | None =>
      all_variables ← get_available_variables;
      let variables := dynamic_variables all_variables in
      UPSDynamicData ←
        new_class "ups_dynamic_data" (dynamic_columns variables);
      modify (set_UPSDynamicData (Some UPSDynamicData));;
      mret UPSDynamicData
  end.

Definition get_ups_model : M model :=
  w ← get_world;
  match _UPSData w with
  | Some m => mret m
  | None =>
      m ← create_dynamic_model;
      modify (set_UPSData (Some m));;
      mret m
  end.

(** *** Device telemetry reader *)

(** A raw value as stored in the sample: [round(float(value), 2)], or the
    string itself when it is not a float. *)
Definition reading (value : string) : pyval :=
  match py_float value with
  | Some x => VFloat (fround2 x)
  | None => VStr value
  end.

Definition mapped_readings (raw_data : odict string) : gmap string pyval :=
  fold_left (fun data kv => <[db_key kv.1 := reading kv.2]> data) raw_data ∅.

(** [float(raw_data.get(key, '0'))] *)
Definition float_of_raw (key : string) (raw_data : odict string)
  : result pyfloat :=
  match py_float (default "0" (odict_get key raw_data)) with
  | Some x => Ok x
  | None => Raise ValueError
  end.

(** [round((load_percent / 100) * nominal_power, 2)] *)
Definition real_power (raw_data : odict string) : result pyfloat :=
  match float_of_raw "ups.load" raw_data with
  | Raise e => Raise e
  | Ok load_percent =>
      match float_of_raw "ups.realpower.nominal" raw_data with
      | Raise e => Raise e
      | Ok nominal_power =>
          match fdiv_int load_percent 100 with
          | Raise e => Raise e
          | Ok fraction => Ok (fround2 (fmul fraction nominal_power))
          end
      end
  end.

(** The part of [get_ups_data] that follows the parsing of the output. *)
Definition ups_data_of_raw (raw_data : odict string)
  : result (gmap string pyval) :=
  let data := mapped_readings raw_data in
  if odict_mem "ups.realpower" raw_data then Ok data
  else
    match real_power raw_data with
    | Ok p => Ok (<["ups_realpower" := VFloat p]> data)
    | Raise (ValueError | TypeError | KeyError) =>
        Ok (<["ups_realpower" := VFloat (Finite 0)]> data)
    | Raise e => Raise e
    end.

(** The sample returned when the UPS name or host is not configured. *)
Definition unconfigured_data : gmap string pyval :=
  <["ups_status" := VStr "ERROR"]>
  (<["ups_model" := VStr "Unknown"]>
  (<["ups_load" := VInt 0]>
  (<["ups_realpower" := VInt 0]>
  (<["input_voltage" := VInt 0]>
  (<["output_voltage" := VInt 0]>
  (<["battery_charge" := VInt 0]>
  (<["battery_runtime" := VInt 0]> ∅))))))).

(** [not x] for an optional string. *)
Definition falsy_str (x : option string) : bool :=
  match x with
  | None => true
  | Some s => bool_decide (s = "")
  end.

Definition get_ups_data : M (gmap string pyval) :=
  try_except
    (w ← get_world;
     if falsy_str (_ups_name w) || falsy_str (_ups_host w)
     then mret unconfigured_data
     else
       raw_data ← get_available_variables;
       match ups_data_of_raw raw_data with
       | Ok data => mret data
       | Raise e => raise e
       end)
    (fun e => raise (UPSDataError ("Failed to get UPS data: " +:+ exn_str e))).

(** *** Aggregation buffer *)

Definition get_next_hour (current_time : datetime) : datetime :=
  let local_time := astimezone current_time in
  plus_timedelta
    (with_wall local_time (wall local_time - wall local_time mod HOUR))
    HOUR.

Definition get_next_minute (current_time : datetime) : datetime :=
  let local_time := astimezone current_time in
  plus_timedelta
    (with_wall local_time (wall local_time - wall local_time mod MINUTE))
    MINUTE.

Definition add (timestamp : datetime) (d : gmap string pyval)
  (self : UPSDataCache) : UPSDataCache :=
  let self :=
    match next_save_time self with
    | None => set_next_save_time (Some (get_next_minute timestamp)) self
    | Some _ => self
    end in
  let self := set_data (data self ++ [(timestamp, d)]) self in
  set_df (Some ((fun '(ts, d) => df_row ts d) <$> data self)) self.

Definition is_save_time (self : UPSDataCache) (current_time : datetime)
  : bool :=
  match next_save_time self with
  | None => false
  | Some nst => dt_ge current_time nst
  end.

(** [None] when there is no frame or the frame has no rows. *)
Definition calculate_averages (self : UPSDataCache)
  : option (gmap string pyval) :=
  match df self with
  | None | Some [] => None
  | Some rows => Some (frame_averages rows)
  end.

Definition is_full (self : UPSDataCache) : bool :=
  cache_size self <=? Z.of_nat (length (data self)).

Definition should_aggregate_daily (current_time : datetime)
  (self : UPSDataCache) : bool * UPSDataCache :=
  let local_time := astimezone current_time in
  if (dt_hour local_time =? 0) && (dt_minute local_time =? 0) then
    if bool_decide (last_daily_aggregation self ≠ Some (dt_date local_time))
    then (true,
          set_last_daily_aggregation (Some (dt_date local_time)) self)
    else (false, self)
  else (false, self).

(** One statement sent to the database. *)
Definition db_execute : M unit :=
  fun w =>
    (match db_fault (w_dbops w) with
     | Some e => Raise e
     | None => Ok tt
     end,
     set_w_dbops (S (w_dbops w)) w).

(** The rows of [ups_dynamic_data] with [lo <= timestamp_tz < hi]. *)
Definition query_window (lo hi : datetime) : M (list record) :=
  db_execute;;
  w ← get_world;
  mret (List.filter (in_window lo hi) (ups_dynamic_data w)).

(** [db.session.add(r); db.session.commit()] *)
Definition add_and_commit (r : record) : M unit :=
  db_execute;;
  modify (fun w => set_ups_dynamic_data (ups_dynamic_data w ++ [r]) w).

(** The handler logs and calls [db.session.rollback()], which is taken not
    to raise. *)
Definition aggregate_daily_data (current_time : datetime) : M unit :=
  try_except
    (let local_time := astimezone current_time in
     let aggregation_time :=
       with_wall local_time
         (wall local_time - wall local_time mod DAY
          + wall local_time mod SECOND) in
     UPSDynamicData ← get_ups_model;
     hours ← query_window (plus_timedelta aggregation_time (- DAY))
                          aggregation_time;
     match sql_avg "ups_realpower_hrs" hours with
     | Some daily_data =>
         if truthy (VFloat daily_data) then
           let daily_avg := fround2 daily_data in
           let new_daily :=
             UPSDynamicData_init
               (<["ups_realpower_days" := VFloat daily_avg]>
                  {["timestamp_tz" :=
                      VDatetime (plus_timedelta aggregation_time (- DAY))]}) in
           add_and_commit new_daily
         else mret tt
     | None => mret tt
     end)
    (fun e => mret tt).

(** [setattr(obj, name, v)] where [v] may be [None]. *)
Definition setattr_opt (name : string) (v : option pyval) (obj : record)
  : record :=
  match v with
  | Some v => <[name := v]> obj
  | None => delete name obj
  end.

(** The loop that copies the averages into the record, for averages that
    have no [daily_power]: [hasattr(dynamic_data, key)] holds for the
    columns of the model. (It holds for [daily_power] too, a property
    without a setter, see [save_if_due]; the other attributes of an
    instance, those of the base class of the ORM, are not names of
    variables of a UPS.) *)
Definition set_averages (UPSDynamicData : model)
  (averages : gmap string pyval) (dynamic_data : record) : record :=
  filter (fun kv => kv.1 ∈ dom (columns UPSDynamicData)) averages
  ∪ dynamic_data.

(** The hourly average of the rows of the hour that has just ended, when
    there is one to write. *)
Definition hourly_average (hour_data : list record) : result (option pyfloat) :=
  match hour_data with
  | [] => Ok None
  | _ =>
      let powers := omap (stored "ups_realpower") hour_data in
      match powers with
      | [] => Ok None
      | _ =>
          match py_sum powers with
          | Raise e => Raise e
          | Ok total =>
              match fdiv_int total (Z.of_nat (length powers)) with
              | Raise e => Raise e
              | Ok hourly_avg => Ok (Some (fround2 hourly_avg))
              end
          end
      end
  end.

(** The start of the hour that ends at [next_hour]:
    [next_hour.astimezone(tz) - timedelta(hours=1)]. *)
Definition exact_hour (next_hour : datetime) : datetime :=
  plus_timedelta (astimezone next_hour) (- HOUR).

(** The block under [if 'ups_realpower' in averages]. *)
Definition hourly_rollup (current_time : datetime)
  (averages : gmap string pyval) (dynamic_data : record) : M record :=
  match averages !! "ups_realpower" with
  | None => mret dynamic_data
  | Some power =>
      self ← get_cache;
      modify_cache
        (set_hourly_data (hourly_data self ++ [(next_save_time self, power)]));;
      match next_hour self with
      | None => raise (ExternalError "AttributeError")
      | Some next_hour =>
          if dt_ge current_time next_hour then
            let exact_hour := exact_hour next_hour in
            hour_data ← query_window exact_hour
                                     (plus_timedelta exact_hour HOUR);
            dynamic_data ←
              match hourly_average hour_data with
              | Raise e => raise e
              | Ok None => mret dynamic_data
              | Ok (Some avg) =>
                  mret (<["ups_realpower_hrs" := VFloat avg]> dynamic_data)
              end;
            modify_cache (set_hourly_data []);;
            modify_cache (set_next_hour (Some (get_next_hour current_time)));;
            mret dynamic_data
          else mret dynamic_data
      end
  end.

(** The record of the minute, before the hourly block: a new instance,
    its timestamp, the averages. *)
Definition minute_record (UPSDynamicData : model)
  (next_save_time : option datetime) (averages : gmap string pyval) : record :=
  let dynamic_data := UPSDynamicData_init ∅ in
  let dynamic_data :=
    setattr_opt "timestamp_tz" (VDatetime <$> next_save_time) dynamic_data in
  set_averages UPSDynamicData averages dynamic_data.

(** What follows the commit: the buffer is emptied, the next boundary is
    computed, the daily aggregation runs when it is due. *)
Definition after_commit (current_time : datetime) : M unit :=
  modify_cache (set_data []);;
  modify_cache (set_df None);;
  modify_cache (set_next_save_time (Some (get_next_minute current_time)));;
  self ← get_cache;
  let '(due, self) := should_aggregate_daily current_time self in
  modify_cache (fun _ => self);;
  if due then aggregate_daily_data current_time else mret tt.

(** [if self.next_hour is None: self.next_hour = ...] *)
Definition init_next_hour (current_time : datetime) : M unit :=
  self ← get_cache;
  match next_hour self with
  | None => modify_cache (set_next_hour (Some (get_next_hour current_time)))
  | Some _ => mret tt
  end.

(** The rest of the [try] statement of [calculate_and_save_averages]. *)
Definition save_if_due (current_time : datetime) : M bool :=
  self ← get_cache;
  if negb (is_save_time self current_time) then mret false
  else
    match calculate_averages self with
    | None => mret false
    | Some averages =>
        if bool_decide (averages = ∅) then mret false
        else
          UPSDynamicData ← get_ups_model;
          (* [setattr(dynamic_data, 'daily_power', value)] *)
          (if bool_decide (is_Some (averages !! "daily_power"))
           then raise AttributeError else mret tt);;
          let dynamic_data :=
            minute_record UPSDynamicData (next_save_time self) averages in
          dynamic_data ← hourly_rollup current_time averages dynamic_data;
          add_and_commit dynamic_data;;
          after_commit current_time;;
          mret true
    end.

(** The body of the [try] statement of [calculate_and_save_averages]. *)
Definition calculate_and_save_averages_body (current_time : datetime)
  : M bool :=
  init_next_hour current_time;;
  save_if_due current_time.

Definition calculate_and_save_averages (current_time : datetime) : M bool :=
  try_except (calculate_and_save_averages_body current_time)
             (fun e => mret false).

(** *** Sampler *)

Definition save_ups_data (now : Z) : M (bool * option string) :=
  try_except
    (let now := datetime_now now in
     d ← get_ups_data;
     modify_cache (add now d);;
     success ← calculate_and_save_averages now;
     mret (true, None))
    (fun e => mret (false, Some ("Error saving data: " +:+ exn_str e))).

(** One turn of the loop of [polling_thread] when the clock reads [now]:
    the new value of [failures] and the seconds slept. *)
Definition polling_iteration (now : Z) (failures : Z)
  : world -> (Z * Z) * world :=
  fun w =>
    match save_ups_data now w with
    | (Ok (success, error), w') =>
        ((if success then 0 else failures + 1, 1), w')
    | (Raise (UPSConnectionError _ | UPSCommandError _ | UPSDataError _), w') =>
        let failures := failures + 1 in
        let sleep_time := Z.min 300 (2 ^ failures) in
        ((failures, sleep_time), w')
    | (Raise _, w') =>
        let failures := failures + 1 in
        ((failures, Z.min 300 (2 ^ failures)), w')
    end.

(** The loop of [polling_thread], for as many turns as there are clock
    readings: the seconds slept in each turn and the final [failures]. *)
Fixpoint polling_thread_from (clock : list Z) (failures : Z) (w : world)
  : list Z * Z * world :=
  match clock with
  | [] => ([], failures, w)
  | now :: clock' =>
      let '((failures, slept), w) := polling_iteration now failures w in
      let '(sleeps, failures, w) := polling_thread_from clock' failures w in
      (slept :: sleeps, failures, w)
  end.

Definition polling_thread (clock : list Z) (w : world) : list Z * Z * world :=
  polling_thread_from clock 0 w.

(** The dates for which successive calls of [should_aggregate_daily], at
    the given times, answer [True]. *)
Fixpoint daily_aggregation_dates (times : list datetime)
  (self : UPSDataCache) : list Z :=
  match times with
  | [] => []
  | t :: times' =>
      let '(due, self) := should_aggregate_daily t self in
      if due then dt_date (astimezone t) :: daily_aggregation_dates times' self
      else daily_aggregation_dates times' self
  end.

(** *** Vocabulary of the properties *)

(** The rows of the hour that ends at [next_hour], as the hourly block
    queries them. *)
Definition hour_rows (next_hour : datetime) (rows : list record)
  : list record :=
  List.filter (in_window (exact_hour next_hour)
                         (plus_timedelta (exact_hour next_hour) HOUR))
              rows.

(** What the hourly block makes of the record [before], given the boundary
    [next_hour] and the committed rows. *)
Definition rolled_up (current_time next_hour : datetime)
  (averages : gmap string pyval) (rows : list record)
  (before after : record) : Prop :=
  match averages !! "ups_realpower" with
  | None => after = before
  | Some _ =>
      if dt_ge current_time next_hour then
        exists written,
          hourly_average (hour_rows next_hour rows) = Ok written
          ∧ after = match written with
                    | Some avg => <["ups_realpower_hrs" := VFloat avg]> before
                    | None => before
                    end
      else after = before
  end.

(** What a run of the save step comes to. Either it answers [True]: a save
    was due, the averages were not empty, one record stamped with the
    boundary was appended to the table (followed by at most one daily row),
    the buffer is empty and the next boundary is the minute after the
    current time. Or it answers [False] or raises, and then the buffer, its
    boundary and the table are as they were. *)
Definition saved (current_time : datetime) (w w' : world) : Prop :=
  exists nst averages UPSDynamicData dynamic_data tail,
    next_save_time (ups_data_cache w) = Some nst
    ∧ dt_ge current_time nst = true
    ∧ calculate_averages (ups_data_cache w) = Some averages
    ∧ averages ≠ ∅
    ∧ rolled_up current_time
                (default (get_next_hour current_time)
                         (next_hour (ups_data_cache w)))
                averages (ups_dynamic_data w)
                (minute_record UPSDynamicData (Some nst) averages)
                dynamic_data
    ∧ ups_dynamic_data w' = (ups_dynamic_data w ++ dynamic_data :: tail)%list
    ∧ (length tail <= 1)%nat
    ∧ data (ups_data_cache w') = []
    ∧ df (ups_data_cache w') = None
    ∧ next_save_time (ups_data_cache w')
      = Some (get_next_minute current_time).

End Pipeline.

(** *** The words of the specification *)

(** A value that is not null in the table: it is there, and it is not a
    NaN, which the table holds as a null. *)
Definition non_null (v : option pyval) : option pyval :=
  match v with
  | Some (VFloat NaN) => None
  | _ => v
  end.


(** A persisted record of the day that ends when the wall clock reads
    [day_end]. *)
Definition of_day_before (day_end : Z) (r : record) : bool :=
  match r !! "timestamp_tz" with
  | Some (VDatetime t) => (day_end - DAY <=? wall t) && (wall t <? day_end)
  | _ => false
  end.

(** A value as the reader makes them: a float, a text, or an int that fits
    int64 (the reader makes the int 0 only). *)
Definition reader_value (v : pyval) : bool :=
  match v with
  | VFloat _ | VStr _ => true
  | VInt z => int64 z
  | VDatetime _ => false
  end.

(** A sample as the reader makes them. *)
Definition reader_sample (d : gmap string pyval) : Prop :=
  map_Forall (fun _ v => reader_value v = true) d.

(** The cells of a field over the buffered window, one for each sample:
    the number the sample has for the field, NaN for a sample that does
    not carry the field. *)
Definition field_cells (field : string)
  (buffer : list (datetime * gmap string pyval)) : list pyfloat :=
  (fun p : datetime * gmap string pyval =>
     match p.2 !! field with
     | Some (VInt z) => float_of_int z
     | Some (VFloat x) => x
     | _ => NaN
     end) <$> buffer.

(** The frame [add] builds from a buffer. *)
Definition rows_of (buffer : list (datetime * gmap string pyval))
  : list (gmap string pyval) :=
  (fun '(ts, d) => df_row ts d) <$> buffer.

(** The values a field has in the buffered samples that carry it. *)
Definition buffered_values (field : string)
  (buffer : list (datetime * gmap string pyval)) : list pyval :=
  omap (fun p : datetime * gmap string pyval => p.2 !! field) buffer.

(** Only the primary key of a model is an [Integer] column. *)
Definition integer_only_id (ns : gmap string coltype) : Prop :=
  forall key, ns !! key = Some Integer -> key = "id".

(** What a step leaves alone: the buffer of samples with its frame and its
    next boundary, and the committed rows. *)
Definition same_buffer (w w' : world) : Prop :=
  data (ups_data_cache w') = data (ups_data_cache w)
  ∧ df (ups_data_cache w') = df (ups_data_cache w)
  ∧ next_save_time (ups_data_cache w') = next_save_time (ups_data_cache w)
  ∧ last_daily_aggregation (ups_data_cache w')
    = last_daily_aggregation (ups_data_cache w).

Definition same_rows (w w' : world) : Prop :=
  ups_dynamic_data w' = ups_dynamic_data w.

(** ** Scenarios

    Concrete outsides and states, on which the properties below are
    evaluated. *)

(** The sums taken from left to right, as the interpreter took them before
    version 3.12 and as numpy takes those of a short column; a text counts
    for zero in the average of SQLite when it does not begin with a
    number. *)
Definition fsum (xs : list pyfloat) : pyfloat :=
  fold_left fadd xs (Finite 0).

Definition sql_number (v : pyval) : pyfloat :=
  match v with
  | VInt z => float_of_int z
  | VFloat x => x
  | VStr _ | VDatetime _ => Finite 0
  end.

Definition left_to_right : Sums :=
  {| builtin_sum := fsum;
     numpy_sum := fsum;
     sqlite_avg := fun vs =>
       fdiv (fsum (sql_number <$> vs))
            (float_of_int (Z.of_nat (length vs))) |}.

Section Scenarios.

#[local] Existing Instance left_to_right.

(** UTC. *)
Definition utc : Z -> Z := fun _ => 0.

(** A device that answers every query with the same four variables. *)
Definition steady_device : nat -> result (list (string * string)) :=
  fun _ => Ok [("ups.load", "20"); ("ups.realpower.nominal", "500");
               ("ups.status", "OL"); ("battery.charge", "87.5")].

(** A device under a light load, which does not report its power. *)
Definition light_load_device : nat -> result (list (string * string)) :=
  fun _ => Ok [("ups.load", "0.5"); ("ups.realpower.nominal", "865");
               ("ups.status", "OL")].

(** A device that cannot be reached. *)
Definition dead_device : nat -> result (list (string * string)) :=
  fun _ => Raise (ExternalError "Error: Connection failure").

Definition no_fault : nat -> option exn := fun _ => None.

(** A database that refuses every statement. *)
Definition locked_database : nat -> option exn :=
  fun _ => Some (ExternalError "database is locked").

Definition at_second (s : Z) : datetime :=
  {| instant := s * SECOND; utcoffset := 0 |}.

(** A configured process that has not polled yet. *)
Definition fresh_world : world :=
  configure_ups "localhost" "ups" (initial_world 60).

(** The state in which [save_ups_data] calls
    [calculate_and_save_averages] when the clock reads [now]: the sample
    has been read and added to the buffer. *)
Definition sampled (upsc : nat -> result (list (string * string)))
  (now : Z) (w : world) : world :=
  match get_ups_data upsc w with
  | (Ok d, w') =>
      set_ups_data_cache (add utc (datetime_now utc now) d (ups_data_cache w'))
                         w'
  | (Raise _, w') => w'
  end.

(** A process that polled at 0:00:59 and is about to save at 0:01:00. *)
Definition world_at_minute : world :=
  sampled steady_device (60 * SECOND)
    (save_ups_data utc steady_device no_fault (59 * SECOND) fresh_world).2.

(** A process that polled at 0:00:59, stalled for two minutes, and is about
    to save at 0:03:05. *)
Definition world_after_stall : world :=
  sampled steady_device (185 * SECOND)
    (save_ups_data utc steady_device no_fault (59 * SECOND) fresh_world).2.

(** A row of the table with a timestamp and a power. *)
Definition minute_row (second : Z) (power : Q) : record :=
  <["ups_realpower" := VFloat (Finite power)]>
    (<["timestamp_tz" := VDatetime (at_second second)]>
       (UPSDynamicData_init ∅)).

(** A process that polled at 0:59:59, has two rows of the hour from 0:00 to
    1:00 in its table, with powers 100 W and 101 W, and is about to save at
    1:00:00. *)
Definition world_at_hour : world :=
  sampled steady_device (3600 * SECOND)
    (set_ups_dynamic_data
       [minute_row 3480 100; minute_row 3540 101]
       (save_ups_data utc steady_device no_fault (3599 * SECOND)
                      fresh_world).2).

(** The process of [world_at_minute] after its flush of 0:01:00, about to
    save at 0:02:00: its model exists. *)
Definition world_at_second_minute : world :=
  sampled steady_device (120 * SECOND)
    (calculate_and_save_averages utc steady_device no_fault (at_second 60)
       world_at_minute).2.

(** The process of [world_at_hour] after its flush of 1:00:00: its table has
    a row with an hourly average. *)
Definition world_after_hour : world :=
  (calculate_and_save_averages utc steady_device no_fault (at_second 3600)
     world_at_hour).2.




End Scenarios.

(** ** More of [db_module]

    The functions below are not on the path of a flush: the bootstrap of
    the tables, the second daily aggregation, the names of the static
    fields and the classification of event messages. *)

(** [field_name.replace('_', '.')]: a column name as a NUT name. *)
Definition nut_key (field_name : string) : string :=
  replace_char "_" "." field_name.

Definition is_static_field (field_name : string) : bool :=
  bool_decide (nut_key field_name ∈ STATIC_FIELDS).


(** *** Substrings *)

Fixpoint starts_with (p s : list ascii) : bool :=
  match p, s with
  | [], _ => true
  | _ :: _, [] => false
  | a :: p', b :: s' => Ascii.eqb a b && starts_with p' s'
  end.

(** [p in s] *)
Fixpoint contains (p s : list ascii) : bool :=
  starts_with p s
  || match s with
     | [] => false
     | _ :: s' => contains p s'
     end.

(** What follows the first occurrence of [sep] in [s]. *)
Fixpoint after_first (sep s : list ascii) : list ascii :=
  if starts_with sep s then drop (length sep) s
  else match s with
       | [] => []
       | _ :: s' => after_first sep s'
       end.

(** What precedes the first occurrence of [sep] in [s]; all of [s] when
    there is none. *)
Fixpoint before_first (sep s : list ascii) : list ascii :=
  if starts_with sep s then []
  else match s with
       | [] => []
       | c :: s' => c :: before_first sep s'
       end.

(** [s.split(sep)[1]] for a separator that is not empty and occurs in [s]:
    the text between the first occurrence and the next one. *)
Definition split_second (sep s : list ascii) : list ascii :=
  before_first sep (after_first sep s).

Section EventType.

(** [str.lower] and [str.strip] of Python, which know Unicode, are taken as
    they are. *)
Variable py_lower : list ascii -> list ascii.
Variable py_strip : list ascii -> list ascii.

(** The prefix-stripping statement
    [if sep in m: m = m.split(sep)[1]]. *)
Definition drop_prefix (sep : string) (m : list ascii) : list ascii :=
  let sep := list_ascii_of_string sep in
  if contains sep m then split_second sep m else m.

(** The message as the chain of tests sees it. *)
Definition event_text (event_message : string) : list ascii :=
  let m := py_lower (list_ascii_of_string event_message) in
  let m := drop_prefix "ups " m in
  let m := drop_prefix "@localhost" m in
  let m := drop_prefix ": " m in
  py_strip m.

Definition get_event_type (event_message : string) : string :=
  let m := event_text event_message in
  let has (p : string) := contains (list_ascii_of_string p) m in
  if has "on line power" then "ONLINE"
  else if has "on battery" then "ONBATT"
  else if has "low battery" then "LOWBATT"
  else if has "battery needs replacement" then "REPLBATT"
  else if has "communication lost" then "COMMFAULT"
  else if has "shutdown in progress" then "SHUTDOWN"
  else if has "ups overloaded" then "OVERLOAD"
  else if has "battery charging" then "CHARGING"
  else if has "battery discharging" then "DISCHARGING"
  else if has "bypass active" then "BYPASS"
  else if has "test in progress" then "CAL"
  else if has "ups failed" then "FAULT"
  else if has "temperature high" then "OVERHEAT"
  else if has "input voltage high" then "OVERVOLTAGE"
  else if has "input voltage low" then "UNDERVOLTAGE"
  else if has "ups off" then "OFF"
  else if has "ups initialized" || has "startup" then "STARTUP"
  else "UNKNOWN".

End EventType.

Section Bootstrap.

Context {sums : Sums}.
Variable tz : Z -> Z.
Variable upsc : nat -> result (list (string * string)).
Variable db_fault : nat -> option exn.

(** [db.session.query(UPSDynamicData).first()] *)
Definition query_first : M (option record) :=
  db_execute db_fault;;
  w ← get_world;
  mret (head (ups_dynamic_data w)).

(** The record [insert_initial_dynamic_data] builds from the variables of
    the device, none of which is named as the property [daily_power]: a
    variable whose column exists is stored as a float when it is one, as
    the string otherwise. *)
Definition initial_record (UPSDynamicData : model) (now : datetime)
  (current_data : odict string) : record :=
  fold_left
    (fun new_record kv =>
       let column_name := db_key kv.1 in
       if bool_decide (column_name ∈ dom (columns UPSDynamicData)) then
         match py_float kv.2 with
         | Some numeric_value =>
             <[column_name := VFloat numeric_value]> new_record
         | None => <[column_name := VStr kv.2]> new_record
         end
       else new_record)
    current_data
    (UPSDynamicData_init {["timestamp_tz" := VDatetime now]}).

Definition insert_initial_dynamic_data (now : Z) : M unit :=
  try_except
    (UPSDynamicData ← get_ups_model upsc;
     first ← query_first;
     match first with
     | None =>
         current_data ← get_available_variables upsc;
         (* [setattr(new_record, 'daily_power', value)], twice *)
         (if bool_decide (Exists (fun kv => db_key kv.1 = "daily_power")
                                 current_data)
          then raise AttributeError else mret tt);;
         let new_record :=
           initial_record UPSDynamicData (datetime_now tz now) current_data in
         add_and_commit db_fault new_record
     | Some _ => mret tt
     end)
    (fun e => mret tt).

(** The rows of the window that have an hourly average. *)
Definition query_hourly (lo hi : datetime) : M (list record) :=
  db_execute db_fault;;
  w ← get_world;
  mret (List.filter
          (fun r : record =>
             in_window lo hi r
             && bool_decide (is_Some (stored "ups_realpower_hrs" r)))
          (ups_dynamic_data w)).

(** [calculate_daily_power] when the clock reads [now]. The handler logs
    and calls [db.session.rollback()], which is taken not to raise. *)
Definition calculate_daily_power (now : Z) : M unit :=
  try_except
    (UPSDynamicData ← get_ups_model upsc;
     let now := datetime_now tz now in
     let previous_day := plus_timedelta now (- DAY) in
     let start_date :=
       with_wall previous_day (wall previous_day - wall previous_day mod DAY) in
     let end_date := plus_timedelta start_date DAY in
     hourly_data ← query_hourly start_date end_date;
     match hourly_data with
     | [] => mret tt
     | _ =>
         let hrs := omap (stored "ups_realpower_hrs") hourly_data in
         match py_sum hrs with
         | Raise e => raise e
         | Ok total =>
             match fdiv_int total (Z.of_nat (length hourly_data)) with
             | Raise e => raise e
             | Ok daily_power =>
                 let daily_record :=
                   UPSDynamicData_init
                     (<["ups_realpower_days" := VFloat (fround2 daily_power)]>
                        {["timestamp_tz" := VDatetime start_date]}) in
                 add_and_commit db_fault daily_record
             end
         end
     end)
    (fun e => mret tt).

End Bootstrap.

(** The state of the buffer between two calls of [save_ups_data]: empty
    with no frame, or a frame that has one row for each buffered sample and
    a boundary that is set. *)
Definition buffer_in_step (c : UPSDataCache) : Prop :=
  (data c = [] ∧ df c = None)
  ∨ (data c ≠ [] ∧ df c = Some (rows_of (data c))
     ∧ is_Some (next_save_time c)).

(** [l] occurs in [s]. *)
Definition infix_of (t s : list ascii) : Prop :=
  exists l r, s = (l ++ t ++ r)%list.

(** * Properties *)

Local Open Scope list_scope.

(** ** Type inference *)

Lemma fold_left_invariant {A B : Type} (P : A -> Prop) (f : A -> B -> A)
  (l : list B) (a : A) :
  P a -> (forall a b, b ∈ l -> P a -> P (f a b)) -> P (fold_left f l a).
Proof.
  revert a. induction l as [|b l IH]; intros a Ha Hstep; simpl; [done|].
  apply IH.
  - apply Hstep; [left | done].
  - intros a' b' Hb'. apply Hstep. by right.
Qed.

(** Whatever [int] accepts, [float] accepts. *)
Lemma py_int_py_float (s : string) (z : Z) :
  py_int s = Some z -> is_Some (py_float s).
Proof.
  unfold py_int, py_float.
  destruct (sign (strip (list_ascii_of_string s))) as [neg body].
  destruct (digitpart body) as [[ds r]|] eqn:Hd; [|done].
  destruct r; [|done]. intros _.
  unfold floatnumber. rewrite Hd. simpl. eauto.
Qed.

Lemma infer_column_cases (value : string) :
  infer_column value = Float ∨ infer_column value = String255.
Proof.
  unfold infer_column.
  destruct (py_float value) eqn:Hf; [by left|].
  destruct (py_int value) as [z|] eqn:Hi; [|by right].
  apply py_int_py_float in Hi. rewrite Hf in Hi. by destruct Hi.
Qed.

Lemma infer_column_not_integer (value : string) :
  infer_column value ≠ Integer.
Proof. by destruct (infer_column_cases value) as [-> | ->]. Qed.

Lemma integer_only_id_insert (ns : gmap string coltype) (key value : string) :
  integer_only_id ns -> integer_only_id (<[key := infer_column value]> ns).
Proof.
  intros Hns k. rewrite lookup_insert. case_decide.
  - intros [= Heq]. by apply infer_column_not_integer in Heq.
  - apply Hns.
Qed.

(** C9. The [Integer] branch of the type inference cannot be taken: a value
    that [float] rejects is rejected by [int] too, so a value is inferred to
    be [Float] or [String(255)]; no column of
    [get_available_ups_variables] is an [Integer], and in the two models the
    only [Integer] column is the primary key [id], which is not inferred. *)
Theorem integer_branch_unreachable :
  (forall value, py_float value = None -> py_int value = None)
  ∧ (forall value,
       infer_column value = Float ∨ infer_column value = String255)
  ∧ (forall variables key, mapped_columns variables !! key ≠ Some Integer)
  ∧ (forall variables, integer_only_id (static_columns variables))
  ∧ (forall variables, integer_only_id (dynamic_columns variables)).
Proof.
  split_and!.
  - intros value Hf. destruct (py_int value) as [z|] eqn:Hi; [|done].
    apply py_int_py_float in Hi. rewrite Hf in Hi. by destruct Hi.
  - apply infer_column_cases.
  - intros variables key. unfold mapped_columns.
    apply (fold_left_invariant
             (fun ns : gmap string coltype => ns !! key ≠ Some Integer)).
    + by rewrite lookup_empty.
    + intros ns kv _ Hns. rewrite lookup_insert. case_decide; [|done].
      intros [= Heq]. by apply infer_column_not_integer in Heq.
  - intros variables. unfold static_columns.
    apply (fold_left_invariant integer_only_id).
    + intros key. rewrite !lookup_insert. repeat case_decide; naive_solver.
    + intros ns kv _. apply integer_only_id_insert.
  - intros variables. unfold dynamic_columns.
    apply (fold_left_invariant integer_only_id).
    + intros key. rewrite !lookup_insert. repeat case_decide; naive_solver.
    + intros ns kv _ Hns. case_decide; [done|].
      by apply integer_only_id_insert.
Qed.

(** At a value that is not a number, both conversions raise and the column
    is a string. *)
Lemma integer_branch_unreachable_witness :
  py_float "OL" = None ∧ py_int "OL" = None ∧ infer_column "OL" = String255.
Proof.
  split; [reflexivity|]. split; [|reflexivity].
  apply (proj1 integer_branch_unreachable "OL"). reflexivity.
Defined.

(** ** Reasoning about the monad *)

Lemma bind_run {A B : Type} (m : M A) (k : A -> M B) (w : world) :
  (m ≫= k) w =
  match m w with
  | (Ok a, w') => k a w'
  | (Raise e, w') => (Raise e, w')
  end.
Proof. reflexivity. Qed.

Lemma try_except_run {A : Type} (body : M A) (handler : exn -> M A)
  (w : world) :
  try_except body handler w =
  match body w with
  | (Ok a, w') => (Ok a, w')
  | (Raise e, w') => handler e w'
  end.
Proof. reflexivity. Qed.

(** One step of a monadic computation, and as many as there are. *)
Ltac mstep :=
  rewrite bind_run;
  cbn [modify_cache modify get_cache get_world mret M_ret raise].
Ltac msteps := repeat mstep.

Lemma same_buffer_refl (w : world) : same_buffer w w.
Proof. by repeat split. Qed.

Lemma same_buffer_trans (w1 w2 w3 : world) :
  same_buffer w1 w2 -> same_buffer w2 w3 -> same_buffer w1 w3.
Proof.
  intros (?&?&?&?) (?&?&?&?). repeat split; congruence.
Qed.

Lemma same_rows_trans (w1 w2 w3 : world) :
  same_rows w1 w2 -> same_rows w2 w3 -> same_rows w1 w3.
Proof. unfold same_rows. congruence. Qed.

Section PipelineProperties.

Context {sums : Sums}.
Variable tz : Z -> Z.
Variable upsc : nat -> result (list (string * string)).
Variable db_fault : nat -> option exn.

(** *** Frames of the steps of a flush *)

Lemma get_available_variables_frame (w w' : world) (r : result (odict string)) :
  get_available_variables upsc w = (r, w') ->
  ups_data_cache w' = ups_data_cache w
  ∧ ups_dynamic_data w' = ups_dynamic_data w
  ∧ w_dbops w' = w_dbops w.
Proof.
  unfold get_available_variables.
  destruct (upsc (w_queries w)); intros [= <- <-]; done.
Qed.

Lemma create_dynamic_model_frame (w w' : world) (r : result model) :
  create_dynamic_model upsc w = (r, w') ->
  ups_data_cache w' = ups_data_cache w
  ∧ ups_dynamic_data w' = ups_dynamic_data w
  ∧ w_dbops w' = w_dbops w.
Proof.
  unfold create_dynamic_model. rewrite bind_run. simpl.
  destruct (_UPSDynamicData w); [by intros [= <- <-]|].
  rewrite bind_run.
  destruct (get_available_variables upsc w) as [[vars|e] w1] eqn:Hq;
    apply get_available_variables_frame in Hq as (?&?&?).
  - intros [= <- <-]. done.
  - intros [= <- <-]. done.
Qed.

Lemma get_ups_model_frame (w w' : world) (r : result model) :
  get_ups_model upsc w = (r, w') ->
  ups_data_cache w' = ups_data_cache w
  ∧ ups_dynamic_data w' = ups_dynamic_data w
  ∧ w_dbops w' = w_dbops w.
Proof.
  unfold get_ups_model. rewrite bind_run. simpl.
  destruct (_UPSData w); [by intros [= <- <-]|].
  rewrite bind_run.
  destruct (create_dynamic_model upsc w) as [[m|e] w1] eqn:Hc;
    apply create_dynamic_model_frame in Hc as (?&?&?).
  - intros [= <- <-]. done.
  - intros [= <- <-]. done.
Qed.

Lemma db_execute_run (w : world) :
  db_execute db_fault w =
  (match db_fault (w_dbops w) with Some e => Raise e | None => Ok tt end,
   set_w_dbops (S (w_dbops w)) w).
Proof. reflexivity. Qed.

Lemma query_window_run (lo hi : datetime) (w : world) :
  query_window db_fault lo hi w =
  (match db_fault (w_dbops w) with
   | Some e => Raise e
   | None => Ok (List.filter (in_window lo hi) (ups_dynamic_data w))
   end,
   set_w_dbops (S (w_dbops w)) w).
Proof.
  unfold query_window. rewrite bind_run, db_execute_run.
  by destruct (db_fault (w_dbops w)).
Qed.

Lemma add_and_commit_run (r : record) (w : world) :
  add_and_commit db_fault r w =
  match db_fault (w_dbops w) with
  | Some e => (Raise e, set_w_dbops (S (w_dbops w)) w)
  | None =>
      (Ok tt,
       set_ups_dynamic_data (ups_dynamic_data w ++ [r])
                            (set_w_dbops (S (w_dbops w)) w))
  end.
Proof.
  unfold add_and_commit. rewrite bind_run, db_execute_run.
  by destruct (db_fault (w_dbops w)).
Qed.

(** The hourly block reads the table and touches [hourly_data] and
    [next_hour] only; the record it returns is the one it was given, with
    [ups_realpower_hrs] written when the hour has ended and has powers. *)
Lemma hourly_rollup_frame (current_time : datetime)
  (averages : gmap string pyval) (dynamic_data : record)
  (w w' : world) (r : result record) :
  hourly_rollup tz db_fault current_time averages dynamic_data w = (r, w') ->
  same_buffer w w' ∧ same_rows w w'
  ∧ forall dynamic_data' fallback,
      r = Ok dynamic_data' ->
      rolled_up tz current_time
                (default fallback (next_hour (ups_data_cache w)))
                averages (ups_dynamic_data w) dynamic_data dynamic_data'.
Proof.
  unfold hourly_rollup, rolled_up.
  destruct (averages !! "ups_realpower") as [power|].
  2: { intros [= <- <-]. split_and!; [apply same_buffer_refl|done|].
       by intros ? ? [= <-]. }
  mstep. mstep. simpl.
  destruct (next_hour (ups_data_cache w)) as [nh|].
  2: { intros [= <- <-]. split_and!; [by repeat split|done|done]. }
  simpl. destruct (dt_ge current_time nh) eqn:Hge.
  2: { intros [= <- <-]. split_and!; [by repeat split|done|].
       by intros ? ? [= <-]. }
  rewrite bind_run, query_window_run. simpl.
  destruct (db_fault (w_dbops w)) as [e|].
  { intros [= <- <-]. split_and!; [by repeat split|done|done]. }
  rewrite bind_run. fold (hour_rows tz nh (ups_dynamic_data w)).
  destruct (hourly_average (hour_rows tz nh (ups_dynamic_data w)))
    as [[avg|]|e] eqn:Havg; simpl.
  - intros [= <- <-]. split_and!; [by repeat split|done|].
    intros ? ? [= <-]. eexists. by split.
  - intros [= <- <-]. split_and!; [by repeat split|done|].
    intros ? ? [= <-]. eexists. by split.
  - intros [= <- <-]. split_and!; [by repeat split|done|done].
Qed.

(** Daily aggregation contains its errors, leaves the cache alone and adds
    at most one row. *)
Lemma aggregate_daily_data_frame (current_time : datetime) (w : world) :
  exists w' tail,
    aggregate_daily_data tz upsc db_fault current_time w = (Ok tt, w')
    ∧ ups_data_cache w' = ups_data_cache w
    ∧ ups_dynamic_data w' = ups_dynamic_data w ++ tail
    ∧ (length tail <= 1)%nat.
Proof.
  unfold aggregate_daily_data. rewrite try_except_run, bind_run.
  destruct (get_ups_model upsc w) as [[m|e] w1] eqn:Hm;
    apply get_ups_model_frame in Hm as (Hc & Hr & Hd).
  2: { exists w1, []. rewrite app_nil_r. simpl. split_and!; auto. }
  rewrite bind_run, query_window_run.
  destruct (db_fault (w_dbops w1)) as [e|].
  { eexists _, []. rewrite app_nil_r. simpl. split_and!; eauto. }
  match goal with |- context [sql_avg ?c ?rs] =>
    destruct (sql_avg c rs) as [daily|] end.
  2: { eexists _, []. rewrite app_nil_r. simpl. split_and!; eauto. }
  destruct (truthy (VFloat daily)).
  2: { eexists _, []. rewrite app_nil_r. simpl. split_and!; eauto. }
  rewrite add_and_commit_run. simpl.
  destruct (db_fault (S (w_dbops w1))) as [e|].
  { eexists _, []. rewrite app_nil_r. simpl. split_and!; eauto. }
  eexists _, [_]. simpl. split_and!; eauto. by rewrite Hr.
Qed.

(** After the commit the buffer is empty and the next boundary is the minute
    that follows the current time. *)
Lemma after_commit_run (current_time : datetime) (w : world) :
  exists w' tail,
    after_commit tz upsc db_fault current_time w = (Ok tt, w')
    ∧ data (ups_data_cache w') = []
    ∧ df (ups_data_cache w') = None
    ∧ next_save_time (ups_data_cache w')
      = Some (get_next_minute tz current_time)
    ∧ ups_dynamic_data w' = ups_dynamic_data w ++ tail
    ∧ (length tail <= 1)%nat.
Proof.
  unfold after_commit. msteps.
  match goal with |- context [should_aggregate_daily ?t ?c ?s] =>
    destruct (should_aggregate_daily t c s) as [due self] eqn:Hdue end.
  msteps.
  assert (data self = [] ∧ df self = None
          ∧ next_save_time self = Some (get_next_minute tz current_time))
    as (Hdata & Hdf & Hnst).
  { unfold should_aggregate_daily in Hdue.
    repeat match type of Hdue with
           | context [if ?b then _ else _] => destruct b
           end; by injection Hdue as <- <-. }
  destruct due.
  - match goal with |- context [aggregate_daily_data _ _ _ _ ?w0] =>
      destruct (aggregate_daily_data_frame current_time w0)
        as (w' & tail & -> & Hc & Hr & Ht) end.
    exists w', tail. rewrite Hc. simpl. split_and!; auto.
  - eexists _, []. rewrite app_nil_r. simpl. split_and!; eauto.
Qed.

Lemma init_next_hour_run (current_time : datetime) (w : world) :
  exists w',
    init_next_hour tz current_time w = (Ok tt, w')
    ∧ same_buffer w w' ∧ same_rows w w' ∧ w_dbops w' = w_dbops w
    ∧ next_hour (ups_data_cache w')
      = Some (default (get_next_hour tz current_time)
                      (next_hour (ups_data_cache w))).
Proof.
  unfold init_next_hour. msteps.
  destruct (next_hour (ups_data_cache w)) as [nh|] eqn:Hnh; simpl.
  - exists w. by repeat split.
  - eexists. split; [reflexivity|]. by repeat split.
Qed.

Lemma save_if_due_cases (current_time : datetime) (w w' : world)
  (r : result bool) :
  save_if_due tz upsc db_fault current_time w = (r, w') ->
  (r = Ok true ∧ saved tz current_time w w')
  ∨ (r ≠ Ok true ∧ same_buffer w w' ∧ same_rows w w').
Proof.
  unfold save_if_due. msteps.
  destruct (is_save_time (ups_data_cache w) current_time) eqn:Hdue; simpl.
  2: { intros [= <- <-]. right. split_and!; [done|apply same_buffer_refl|done]. }
  destruct (calculate_averages (ups_data_cache w)) as [averages|] eqn:Havg.
  2: { intros [= <- <-]. right. split_and!; [done|apply same_buffer_refl|done]. }
  case_bool_decide as Hne.
  { intros [= <- <-]. right. split_and!; [done|apply same_buffer_refl|done]. }
  mstep.
  destruct (get_ups_model upsc w) as [[m|e] w1] eqn:Hm;
    apply get_ups_model_frame in Hm as (Hc1 & Hr1 & Hd1).
  2: { intros [= <- <-]. right. split_and!; [done| |done].
       unfold same_buffer. by rewrite Hc1. }
  rewrite bind_run. case_bool_decide as Hsetter.
  { intros [= <- <-]. right. split_and!; [done| |done].
    unfold same_buffer. by rewrite Hc1. }
  cbn [mret M_ret]. mstep.
  match goal with |- context [hourly_rollup _ _ _ _ ?rec w1] =>
    destruct (hourly_rollup tz db_fault current_time averages rec w1)
      as [[rec'|e] w2] eqn:Hh end;
    apply hourly_rollup_frame in Hh as (Hb2 & Hr2 & Hrec).
  2: { intros [= <- <-]. right. split_and!; [done| |].
       - destruct Hb2 as (?&?&?&?). unfold same_buffer. by rewrite <- Hc1.
       - unfold same_rows in *. congruence. }
  mstep. rewrite add_and_commit_run.
  destruct (db_fault (w_dbops w2)) as [e|].
  { intros [= <- <-]. right. split_and!; [done| |].
    - destruct Hb2 as (?&?&?&?). unfold same_buffer. simpl. by rewrite <- Hc1.
    - unfold same_rows in *. simpl. congruence. }
  mstep.
  match goal with |- context [after_commit _ _ _ _ ?w0] =>
    destruct (after_commit_run current_time w0)
      as (w3 & tail & -> & Hdata & Hdf & Hnst & Hrows & Htail) end.
  simpl. intros [= <- <-]. left. split; [done|].
  unfold is_save_time in Hdue.
  destruct (next_save_time (ups_data_cache w)) as [nst|] eqn:Hn; [|done].
  exists nst, averages, m, rec', tail.
  split_and!; auto.
  - rewrite <- Hr1, <- Hc1. by apply Hrec.
  - rewrite Hrows. simpl. unfold same_rows in *. rewrite Hr2, Hr1.
    by rewrite <- app_assoc.
Qed.

Lemma calculate_averages_same_df (c c' : UPSDataCache) :
  df c' = df c -> calculate_averages c' = calculate_averages c.
Proof. unfold calculate_averages. by intros ->. Qed.

Lemma body_cases (current_time : datetime) (w w' : world) (r : result bool) :
  calculate_and_save_averages_body tz upsc db_fault current_time w = (r, w') ->
  (r = Ok true ∧ saved tz current_time w w')
  ∨ (r ≠ Ok true ∧ same_buffer w w' ∧ same_rows w w').
Proof.
  unfold calculate_and_save_averages_body. rewrite bind_run.
  destruct (init_next_hour_run current_time w)
    as (w1 & -> & Hb & Hr & Hd & Hnh).
  intros Hs. apply save_if_due_cases in Hs as [[-> Hs] | (Hne & Hb' & Hr')].
  - left. split; [done|].
    destruct Hs as (nst & averages & m & rec & tail & Hnst & Hge & Havg
                    & Hnempty & Hroll & Hrows & Htail & Hrest).
    destruct Hb as (Hdata & Hdf & Hn & Hl).
    destruct Hrest as (Hdata' & Hdf' & Hnst').
    exists nst, averages, m, rec, tail. split_and!; try done.
    + by rewrite <- Hn.
    + by rewrite <- (calculate_averages_same_df _ _ Hdf).
    + rewrite Hnh in Hroll. simpl in Hroll. by rewrite <- Hr.
    + by rewrite <- Hr.
  - right. split_and!; [done| |].
    + by apply (same_buffer_trans w w1 w').
    + by apply (same_rows_trans w w1 w').
Qed.

(** The function never raises; its answer is that of its body, [False] when
    the body raised. *)
Lemma calculate_and_save_averages_run (current_time : datetime) (w : world) :
  calculate_and_save_averages tz upsc db_fault current_time w =
  match calculate_and_save_averages_body tz upsc db_fault current_time w with
  | (Ok b, w') => (Ok b, w')
  | (Raise e, w') => (Ok false, w')
  end.
Proof. reflexivity. Qed.

Lemma calculate_and_save_averages_cases (current_time : datetime)
  (w w' : world) (r : result bool) :
  calculate_and_save_averages tz upsc db_fault current_time w = (r, w') ->
  (r = Ok true ∧ saved tz current_time w w')
  ∨ (r = Ok false ∧ same_buffer w w' ∧ same_rows w w').
Proof.
  rewrite calculate_and_save_averages_run.
  destruct (calculate_and_save_averages_body tz upsc db_fault current_time w)
    as [[b|e] w1] eqn:Hbody; intros [= <- <-];
    apply body_cases in Hbody as [[Heq Hs] | (Hne & Hb & Hr)]; try done.
  - left. by injection Heq as ->.
  - right. by destruct b.
  - by right.
Qed.

(** *** The record of the minute *)

Lemma set_averages_lookup_None (m : model) (averages : gmap string pyval)
  (dynamic_data : record) (key : string) :
  averages !! key = None ->
  set_averages m averages dynamic_data !! key = dynamic_data !! key.
Proof.
  intros Hk. unfold set_averages. rewrite lookup_union_r; [done|].
  apply map_lookup_filter_None. left. done.
Qed.

Lemma minute_record_timestamp (m : model) (nst : datetime)
  (averages : gmap string pyval) :
  averages !! "timestamp_tz" = None ->
  minute_record m (Some nst) averages !! "timestamp_tz"
  = Some (VDatetime nst).
Proof.
  intros Hk. unfold minute_record. rewrite set_averages_lookup_None by done.
  simpl. apply lookup_insert_eq.
Qed.

Lemma minute_record_days (m : model) (nst : option datetime)
  (averages : gmap string pyval) :
  averages !! "ups_realpower_days" = None ->
  minute_record m nst averages !! "ups_realpower_days"
  = Some (VFloat (Finite 0)).
Proof.
  intros Hk. unfold minute_record. rewrite set_averages_lookup_None by done.
  unfold UPSDynamicData_init. rewrite lookup_empty.
  destruct nst; simpl.
  - rewrite lookup_insert_ne by done. apply lookup_insert_eq.
  - rewrite lookup_delete_ne by done. apply lookup_insert_eq.
Qed.

Lemma rolled_up_lookup (current_time nh : datetime)
  (averages : gmap string pyval) (rows : list record)
  (before after : record) (key : string) :
  rolled_up tz current_time nh averages rows before after ->
  key ≠ "ups_realpower_hrs" ->
  after !! key = before !! key.
Proof.
  unfold rolled_up. intros H Hkey.
  destruct (averages !! "ups_realpower"); [|by subst].
  destruct (dt_ge current_time nh); [|by subst].
  destruct H as ([avg|] & _ & ->); [|done].
  by rewrite lookup_insert_ne.
Qed.

(** *** Minute boundaries *)

Lemma MINUTE_pos : 0 < MINUTE.
Proof. reflexivity. Qed.

Lemma get_next_minute_instant (t : datetime) :
  instant (get_next_minute tz t)
  = instant t - (instant t + tz (instant t)) mod MINUTE + MINUTE.
Proof. unfold get_next_minute, wall. simpl. lia. Qed.

Lemma get_next_minute_after (t : datetime) :
  instant t < instant (get_next_minute tz t).
Proof.
  rewrite get_next_minute_instant.
  pose proof (Z.mod_pos_bound (instant t + tz (instant t)) MINUTE MINUTE_pos).
  lia.
Qed.

Lemma get_next_minute_of_boundary (t nst : datetime) :
  tz (instant t) mod MINUTE = 0 ->
  instant nst mod MINUTE = 0 ->
  instant nst <= instant t < instant nst + MINUTE ->
  instant (get_next_minute tz t) = instant nst + MINUTE.
Proof.
  intros Hoff Hnst Hin. rewrite get_next_minute_instant.
  pose proof MINUTE_pos as HM.
  apply Z.mod_divide in Hoff as [a Ha]; [|lia].
  apply Z.mod_divide in Hnst as [b Hb]; [|lia].
  assert ((instant t + tz (instant t)) mod MINUTE = instant t - instant nst)
    as ->; [|lia].
  symmetry. apply (Z.mod_unique _ _ (a + b)); lia.
Qed.


(** *** Wall-clock alignment of the flush *)

(** C1, as the code has it. A successful flush stamps its record with the
    boundary that was due and appends it to the table, and then derives the
    next boundary from the current time: it is the whole minute that
    follows [current_time], which lies after [current_time], so no second
    flush is due at that time. When the flush happens less than a minute
    after its boundary, in a zone whose offset is a whole number of
    minutes, the next boundary is the previous one plus one minute; record
    timestamps are then 60 seconds apart. *)
Theorem flush_rederives_next_minute (current_time : datetime)
  (w w' : world) :
  calculate_and_save_averages tz upsc db_fault current_time w = (Ok true, w') ->
  exists nst averages dynamic_data tail,
    next_save_time (ups_data_cache w) = Some nst
    ∧ instant nst <= instant current_time
    ∧ calculate_averages (ups_data_cache w) = Some averages
    ∧ ups_dynamic_data w' = ups_dynamic_data w ++ dynamic_data :: tail
    ∧ (averages !! "timestamp_tz" = None ->
       dynamic_data !! "timestamp_tz" = Some (VDatetime nst))
    ∧ next_save_time (ups_data_cache w')
      = Some (get_next_minute tz current_time)
    ∧ instant current_time < instant (get_next_minute tz current_time)
    ∧ (tz (instant current_time) mod MINUTE = 0 ->
       instant nst mod MINUTE = 0 ->
       instant current_time < instant nst + MINUTE ->
       instant (get_next_minute tz current_time) = instant nst + MINUTE).
Proof.
  intros Hrun.
  apply calculate_and_save_averages_cases in Hrun as [[_ Hs] | [[=] _]].
  destruct Hs as (nst & averages & m & rec & tail & Hnst & Hge & Havg
                  & _ & Hroll & Hrows & _ & _ & _ & Hnext).
  unfold dt_ge in Hge. apply Z.leb_le in Hge.
  exists nst, averages, rec, tail. split_and!; try done.
  - intros Hkey.
    rewrite (rolled_up_lookup _ _ _ _ _ _ _ Hroll) by done.
    by apply minute_record_timestamp.
  - apply get_next_minute_after.
  - intros Hoff Haligned Hlt. by apply get_next_minute_of_boundary.
Qed.


(** *** Errors during a flush *)

(** C3, as the code has it. An error raised in the body of the flush is
    caught: the function answers [False]. No record of the minute is
    committed. The buffer is not cleared: the samples, their frame and the
    boundary are as they were before the call, so the same minute is tried
    again at the next call. *)
Theorem flush_error_keeps_buffer (current_time : datetime)
  (w w' : world) (e : exn) :
  calculate_and_save_averages_body tz upsc db_fault current_time w
  = (Raise e, w') ->
  calculate_and_save_averages tz upsc db_fault current_time w = (Ok false, w')
  ∧ ups_dynamic_data w' = ups_dynamic_data w
  ∧ data (ups_data_cache w') = data (ups_data_cache w)
  ∧ df (ups_data_cache w') = df (ups_data_cache w)
  ∧ next_save_time (ups_data_cache w') = next_save_time (ups_data_cache w).
Proof.
  intros Hbody. rewrite calculate_and_save_averages_run, Hbody.
  apply body_cases in Hbody as [[[=] _] | (_ & (Hd & Hf & Hn & _) & Hr)].
  by split_and!.
Qed.

(** *** Hourly rollup *)

Lemma py_sum_cases (vs : list pyval) :
  (Forall (fun v => is_summand v = true) vs
   ∧ py_sum vs = Ok (builtin_sum (to_float <$> vs)))
  ∨ py_sum vs = Raise TypeError.
Proof.
  unfold py_sum. destruct (forallb is_summand vs) eqn:Hall; [left|by right].
  split; [|done]. apply Forall_forall. intros v Hv.
  rewrite forallb_forall in Hall. apply Hall. by apply list_elem_of_In.
Qed.




Lemma wall_plus_timedelta (d : datetime) (delta : Z) :
  wall (plus_timedelta d delta) = wall d + delta.
Proof. unfold wall, plus_timedelta. simpl. lia. Qed.


Lemma stored_non_null (col : string) (r : record) :
  stored col r = non_null (r !! col).
Proof. unfold stored. by destruct (r !! col) as [[|[]| |]|]. Qed.

Lemma omap_stored (col : string) (rows : list record) :
  omap (stored col) rows = omap (fun d : record => non_null (d !! col)) rows.
Proof.
  induction rows as [|r rows IH]; [done|]. csimpl.
  by rewrite stored_non_null, IH.
Qed.


(** *** The daily-average column of a new record *)

(** C10. A record constructed without [ups_realpower_days] has [0.0]
    there; the [daily_power] accessor answers [0.0] for a stored null; and
    the record a flush commits, whose averages have no field of that name,
    carries [0.0] in the column. *)
Theorem new_record_daily_average_is_zero :
  (forall kwargs : gmap string pyval,
     kwargs !! "ups_realpower_days" = None ->
     UPSDynamicData_init kwargs !! "ups_realpower_days"
     = Some (VFloat (Finite 0)))
  ∧ (forall self : record,
       self !! "ups_realpower_days" = None ->
       daily_power self = VFloat (Finite 0))
  ∧ (forall (current_time : datetime) (w w' : world),
       calculate_and_save_averages tz upsc db_fault current_time w
       = (Ok true, w') ->
       exists averages dynamic_data tail,
         calculate_averages (ups_data_cache w) = Some averages
         ∧ ups_dynamic_data w' = ups_dynamic_data w ++ dynamic_data :: tail
         ∧ (averages !! "ups_realpower_days" = None ->
            dynamic_data !! "ups_realpower_days" = Some (VFloat (Finite 0)))).
Proof.
  split_and!.
  - intros kwargs Hk. unfold UPSDynamicData_init. rewrite Hk.
    apply lookup_insert_eq.
  - intros self Hk. unfold daily_power. by rewrite Hk.
  - intros current_time w w' Hrun.
    apply calculate_and_save_averages_cases in Hrun as [[_ Hs] | [[=] _]].
    destruct Hs as (nst & averages & m & rec & tail & _ & _ & Havg
                    & _ & Hroll & Hrows & _).
    exists averages, rec, tail. split_and!; try done.
    intros Hkey. rewrite (rolled_up_lookup _ _ _ _ _ _ _ Hroll) by done.
    by apply minute_record_days.
Qed.


(** *** The three power fields *)

Lemma odict_set_keys {V : Type} (P : string -> Prop) (k : string) (v : V)
  (d : odict V) :
  P k -> Forall (fun kv => P kv.1) d ->
  Forall (fun kv => P kv.1) (odict_set k v d).
Proof.
  intros Hk. induction d as [|[k' v'] d IH]; intros Hd; simpl.
  - by repeat constructor.
  - inversion Hd; subst. case_decide; constructor; auto.
Qed.

Lemma dynamic_variables_keys (all_variables : odict string) :
  Forall (fun kv => kv.1 ∈ DYNAMIC_FIELDS) (dynamic_variables all_variables).
Proof.
  assert (Forall (fun kv : string * string => kv.1 ∈ DYNAMIC_FIELDS)
                 (odict_restrict DYNAMIC_FIELDS all_variables)) as Hr.
  { unfold odict_restrict. apply Forall_forall. intros kv Hin.
    by apply list_elem_of_filter in Hin as [Hin _]. }
  unfold dynamic_variables.
  match goal with |- context [if ?b then _ else _] => destruct b end; [|done].
  apply (odict_set_keys (fun k => k ∈ DYNAMIC_FIELDS)); [|done].
  apply (bool_decide_unpack _). by vm_compute.
Qed.

(** No whitelisted variable other than [ups.realpower] is stored under the
    name of one of the three power columns. *)
Lemma power_columns_not_shadowed (key : string) :
  key ∈ DYNAMIC_FIELDS -> key ≠ "ups.realpower" ->
  db_key key ∉ ["ups_realpower"; "ups_realpower_hrs"; "ups_realpower_days"].
Proof.
  intros Hin Hne.
  assert (Forall (fun k => k = "ups.realpower"
                           ∨ db_key k ∉ ["ups_realpower"; "ups_realpower_hrs";
                                          "ups_realpower_days"])
                 DYNAMIC_FIELDS) as Hall.
  { apply (bool_decide_unpack _). by vm_compute. }
  rewrite Forall_forall in Hall. by destruct (Hall key Hin).
Qed.

Lemma dynamic_columns_power_fields (all_variables : odict string) :
  let cols := dynamic_columns (dynamic_variables all_variables) in
  cols !! "ups_realpower" = Some Float
  ∧ cols !! "ups_realpower_hrs" = Some Float
  ∧ cols !! "ups_realpower_days" = Some Float.
Proof.
  simpl. unfold dynamic_columns.
  pose proof (dynamic_variables_keys all_variables) as Hkeys.
  rewrite Forall_forall in Hkeys.
  apply (fold_left_invariant
           (fun ns : gmap string coltype =>
              ns !! "ups_realpower" = Some Float
              ∧ ns !! "ups_realpower_hrs" = Some Float
              ∧ ns !! "ups_realpower_days" = Some Float)).
  - by split_and!.
  - intros ns kv Hkv (H1 & H2 & H3). case_decide as Hk; [done|].
    pose proof (power_columns_not_shadowed kv.1 (Hkeys kv Hkv) Hk) as Hnot.
    rewrite !lookup_insert_ne; [done|..];
      intros Heq; apply Hnot; rewrite Heq; set_solver.
Qed.

Lemma get_ups_data_run (w : world) (pairs : list (string * string)) :
  falsy_str (_ups_name w) = false ->
  falsy_str (_ups_host w) = false ->
  upsc (w_queries w) = Ok pairs ->
  get_ups_data upsc w =
  (match ups_data_of_raw (variables_of_pairs pairs) with
   | Ok d => Ok d
   | Raise e => Raise (UPSDataError ("Failed to get UPS data: " +:+ exn_str e))
   end,
   set_w_queries (S (w_queries w)) w).
Proof.
  intros Hn Hh Hq. unfold get_ups_data. rewrite try_except_run. mstep.
  rewrite Hn, Hh. simpl. rewrite bind_run.
  unfold get_available_variables. rewrite Hq.
  by destruct (ups_data_of_raw (variables_of_pairs pairs)).
Qed.

Lemma create_dynamic_model_columns (w w' : world) (m : model) :
  _UPSDynamicData w = None ->
  create_dynamic_model upsc w = (Ok m, w') ->
  exists pairs,
    upsc (w_queries w) = Ok pairs
    ∧ columns m
      = dynamic_columns (dynamic_variables (variables_of_pairs pairs)).
Proof.
  intros Hnone. unfold create_dynamic_model. mstep. rewrite Hnone, bind_run.
  unfold get_available_variables.
  destruct (upsc (w_queries w)) as [pairs|e]; [|done].
  unfold new_class. msteps. intros [= <- <-]. by exists pairs.
Qed.

Lemma float_of_int_100 : float_of_int 100 = Finite 100.
Proof. vm_compute. reflexivity. Qed.

Lemma fdiv_int_100 (x : pyfloat) : fdiv_int x 100 = Ok (fdiv x (Finite 100)).
Proof. unfold fdiv_int. by rewrite float_of_int_100. Qed.

(** C8. Whatever the device reports, the measurement model that
    [create_dynamic_model] creates has the columns [ups_realpower],
    [ups_realpower_hrs] and [ups_realpower_days], of type [Float]. When the
    output of the device has no [ups.realpower], the reader succeeds and its
    sample has [ups_realpower]: with [load_percent] and [nominal_power] the
    floats of [ups.load] and [ups.realpower.nominal] (of '0' for a variable
    that is absent), it is [round((load_percent / 100) * nominal_power, 2)],
    each operation in binary64; and it is [0.0] when one of the two, an
    ASCII text, is not a float. *)
Theorem realpower_fields_always_present :
  (forall (w w' : world) (UPSDynamicData : model),
     _UPSDynamicData w = None ->
     create_dynamic_model upsc w = (Ok UPSDynamicData, w') ->
     columns UPSDynamicData !! "ups_realpower" = Some Float
     ∧ columns UPSDynamicData !! "ups_realpower_hrs" = Some Float
     ∧ columns UPSDynamicData !! "ups_realpower_days" = Some Float)
  ∧ forall (w : world) (pairs : list (string * string)),
      falsy_str (_ups_name w) = false ->
      falsy_str (_ups_host w) = false ->
      upsc (w_queries w) = Ok pairs ->
      let raw_data := variables_of_pairs pairs in
      odict_get "ups.realpower" raw_data = None ->
      exists d w',
        get_ups_data upsc w = (Ok d, w')
        ∧ (forall load_percent nominal_power,
             float_of_raw "ups.load" raw_data = Ok load_percent ->
             float_of_raw "ups.realpower.nominal" raw_data = Ok nominal_power ->
             d !! "ups_realpower"
             = Some (VFloat (fround2 (fmul (fdiv load_percent (Finite 100))
                                           nominal_power))))
        ∧ (Forall (fun kv => is_ascii kv.2 = true) pairs ->
           float_of_raw "ups.load" raw_data = Raise ValueError
           ∨ float_of_raw "ups.realpower.nominal" raw_data = Raise ValueError ->
           d !! "ups_realpower" = Some (VFloat (Finite 0))).
Proof.
  split.
  { intros w w' m Hnone Hrun.
    destruct (create_dynamic_model_columns w w' m Hnone Hrun)
      as (pairs & _ & ->).
    apply dynamic_columns_power_fields. }
  intros w pairs Hn Hh Hq raw_data Habsent.
  rewrite (get_ups_data_run w pairs Hn Hh Hq). fold raw_data.
  unfold ups_data_of_raw, odict_mem. rewrite Habsent.
  rewrite bool_decide_eq_false_2 by (by intros [? [=]]).
  unfold real_power.
  assert (forall key, float_of_raw key raw_data = Raise ValueError
                      ∨ exists x, float_of_raw key raw_data = Ok x) as Hcases.
  { intros key. unfold float_of_raw.
    destruct (py_float _); [right; eauto|by left]. }
  destruct (Hcases "ups.load") as [Hl | [load Hl]]; rewrite Hl.
  { eexists _, _. split; [reflexivity|]. split.
    - by intros ? ? [=].
    - intros _ _. apply lookup_insert_eq. }
  destruct (Hcases "ups.realpower.nominal") as [Hp | [nominal Hp]]; rewrite Hp.
  { eexists _, _. split; [reflexivity|]. split.
    - by intros ? ? _ [=].
    - intros _ _. apply lookup_insert_eq. }
  rewrite fdiv_int_100. eexists _, _. split; [reflexivity|]. split.
  - intros ? ? [= <-] [= <-]. apply lookup_insert_eq.
  - by intros _ [[=] | [=]].
Qed.


(** *** Memoized, order-independent schema derivation *)

Lemma odict_get_is_Some {V : Type} (k : string) (d : odict V) :
  is_Some (odict_get k d) <-> k ∈ d.*1.
Proof.
  induction d as [|[k' v'] d IH]; simpl.
  - split; [by intros [? [=]]|by intros ?%elem_of_nil].
  - rewrite elem_of_cons. case_decide; simpl.
    + split; [by left|eauto].
    + rewrite IH. split; [auto|]. by intros [?|?].
Qed.

Lemma odict_mem_permutation {V : Type} (k : string) (d1 d2 : odict V) :
  d1 ≡ₚ d2 -> odict_mem k d1 = odict_mem k d2.
Proof.
  intros Hp. unfold odict_mem. apply bool_decide_ext.
  rewrite !odict_get_is_Some. by rewrite Hp.
Qed.

Lemma odict_set_absent {V : Type} (k : string) (v : V) (d : odict V) :
  k ∉ d.*1 -> odict_set k v d = d ++ [(k, v)].
Proof.
  induction d as [|[k' v'] d IH]; simpl; [done|].
  rewrite not_elem_of_cons. intros [Hne Hd].
  case_decide; [done|]. by rewrite IH.
Qed.

Lemma odict_mem_false {V : Type} (k : string) (d : odict V) :
  odict_mem k d = false -> k ∉ d.*1.
Proof.
  unfold odict_mem. intros H%bool_decide_eq_false.
  by rewrite <- odict_get_is_Some.
Qed.

Lemma odict_restrict_keys_NoDup {V : Type} (fields : list string)
  (d : odict V) :
  NoDup d.*1 -> NoDup (odict_restrict fields d).*1.
Proof.
  unfold odict_restrict, odict in *. induction d as [|[k v] d IH]; [done|].
  rewrite fmap_cons, NoDup_cons. intros [Hk Hd].
  rewrite filter_cons. case_decide; [|auto].
  rewrite fmap_cons, NoDup_cons. split; [|auto].
  intros Hin. apply Hk.
  apply list_elem_of_fmap in Hin as [kv [-> Hin]].
  apply list_elem_of_filter in Hin as [_ Hin].
  apply list_elem_of_fmap. eauto.
Qed.

Lemma dynamic_variables_permutation (d1 d2 : odict string) :
  d1 ≡ₚ d2 -> dynamic_variables d1 ≡ₚ dynamic_variables d2.
Proof.
  intros Hp. unfold dynamic_variables.
  assert (odict_restrict DYNAMIC_FIELDS d1 ≡ₚ odict_restrict DYNAMIC_FIELDS d2)
    as Hr by (unfold odict_restrict; by rewrite Hp).
  rewrite !(odict_mem_permutation _ _ _ Hr).
  destruct (odict_mem "ups.realpower" (odict_restrict DYNAMIC_FIELDS d2))
    eqn:Hmem; simpl; [done|].
  match goal with |- context [if ?b then _ else _] => destruct b end; [|done].
  rewrite !odict_set_absent.
  - by rewrite Hr.
  - by apply odict_mem_false.
  - apply odict_mem_false. by rewrite (odict_mem_permutation _ _ _ Hr).
Qed.

Lemma dynamic_variables_keys_NoDup (d : odict string) :
  NoDup d.*1 -> NoDup (dynamic_variables d).*1.
Proof.
  intros Hd. apply (odict_restrict_keys_NoDup DYNAMIC_FIELDS) in Hd.
  unfold dynamic_variables.
  destruct (odict_mem "ups.realpower" (odict_restrict DYNAMIC_FIELDS d))
    eqn:Hmem; simpl; [done|].
  match goal with |- context [if ?b then _ else _] => destruct b end; [|done].
  apply odict_mem_false in Hmem. rewrite odict_set_absent by done.
  rewrite fmap_app. apply NoDup_app. split_and!; [done| |apply NoDup_singleton].
  intros k Hk ->%list_elem_of_singleton. done.
Qed.

(** A fold whose steps commute on the elements of the list does not depend
    on their order. *)
Lemma fold_left_permutation {A B : Type} (f : A -> B -> A) (l1 l2 : list B) :
  l1 ≡ₚ l2 ->
  (forall x y a, x ∈ l1 -> y ∈ l1 -> f (f a x) y = f (f a y) x) ->
  forall a, fold_left f l1 a = fold_left f l2 a.
Proof.
  induction 1 as [|x l1 l2 Hp IH|x y l|l1 l2 l3 Hp1 IH1 Hp2 IH2];
    intros Hcomm a; simpl.
  - done.
  - apply IH. intros ? ? ? ? ?. apply Hcomm; by right.
  - f_equal. apply Hcomm; set_solver.
  - rewrite IH1 by done. apply IH2.
    intros ? ? ? ? ?. apply Hcomm; by rewrite Hp1.
Qed.

(** Two different whitelisted variables are stored under different names. *)
Lemma db_key_injective (fields : list string) (k k' : string) :
  NoDup (db_key <$> fields) -> k ∈ fields -> k' ∈ fields ->
  db_key k = db_key k' -> k = k'.
Proof.
  induction fields as [|x fields IH]; [by intros _ ?%elem_of_nil|].
  rewrite fmap_cons, NoDup_cons, !elem_of_cons.
  intros [Hx Hnd] [-> | Hk] [-> | Hk'] Heq; auto.
  - destruct Hx. rewrite Heq. apply list_elem_of_fmap. eauto.
  - destruct Hx. rewrite <- Heq. apply list_elem_of_fmap. eauto.
Qed.

Lemma pair_of_key {V : Type} (d : odict V) (kv kv' : string * V) :
  NoDup d.*1 -> kv ∈ d -> kv' ∈ d -> kv.1 = kv'.1 -> kv = kv'.
Proof.
  induction d as [|x d IH]; [by intros _ ?%elem_of_nil|].
  rewrite fmap_cons, NoDup_cons, !elem_of_cons.
  intros [Hx Hnd] [-> | Hk] [-> | Hk'] Heq; auto.
  - destruct Hx. rewrite Heq. apply list_elem_of_fmap. eauto.
  - destruct Hx. rewrite <- Heq. apply list_elem_of_fmap. eauto.
Qed.

Lemma dynamic_columns_permutation (d1 d2 : odict string) :
  NoDup d1.*1 -> d1 ≡ₚ d2 ->
  dynamic_columns (dynamic_variables d1)
  = dynamic_columns (dynamic_variables d2).
Proof.
  intros Hnd Hp. unfold dynamic_columns.
  apply fold_left_permutation; [by apply dynamic_variables_permutation|].
  pose proof (dynamic_variables_keys d1) as Hkeys.
  rewrite Forall_forall in Hkeys.
  intros kv kv' ns Hkv Hkv'.
  destruct (decide (kv.1 = kv'.1)) as [Heq|Hne].
  { by rewrite (pair_of_key _ _ _ (dynamic_variables_keys_NoDup d1 Hnd)
                            Hkv Hkv' Heq). }
  repeat case_decide; try done.
  apply insert_insert_ne. intros Hdb. apply Hne. symmetry.
  apply (db_key_injective DYNAMIC_FIELDS); auto.
  apply (bool_decide_unpack _). by vm_compute.
Qed.

Lemma static_columns_permutation (d1 d2 : odict string) :
  NoDup d1.*1 -> d1 ≡ₚ d2 ->
  static_columns (odict_restrict STATIC_FIELDS d1)
  = static_columns (odict_restrict STATIC_FIELDS d2).
Proof.
  intros Hnd Hp. unfold static_columns.
  apply fold_left_permutation; [unfold odict_restrict; by rewrite Hp|].
  intros kv kv' ns Hkv Hkv'.
  destruct (decide (kv.1 = kv'.1)) as [Heq|Hne].
  { by rewrite (pair_of_key _ _ _ (odict_restrict_keys_NoDup STATIC_FIELDS
                                     d1 Hnd) Hkv Hkv' Heq). }
  apply insert_insert_ne. intros Hdb. apply Hne. symmetry.
  unfold odict_restrict in Hkv, Hkv'.
  apply list_elem_of_filter in Hkv as [Hkv _].
  apply list_elem_of_filter in Hkv' as [Hkv' _].
  apply (db_key_injective STATIC_FIELDS); auto.
  apply (bool_decide_unpack _). by vm_compute.
Qed.


Lemma create_static_model_cached (w w1 : world) (m : model) :
  create_static_model upsc w = (Ok m, w1) -> _UPSStaticData w1 = Some m.
Proof.
  unfold create_static_model. mstep.
  destruct (_UPSStaticData w) eqn:Hc; [by intros [= <- <-]|].
  rewrite bind_run. unfold get_available_variables.
  destruct (upsc (w_queries w)); [|done].
  by intros [= <- <-].
Qed.

Lemma create_dynamic_model_cached (w w1 : world) (m : model) :
  create_dynamic_model upsc w = (Ok m, w1) -> _UPSDynamicData w1 = Some m.
Proof.
  unfold create_dynamic_model. mstep.
  destruct (_UPSDynamicData w) eqn:Hc; [by intros [= <- <-]|].
  rewrite bind_run. unfold get_available_variables.
  destruct (upsc (w_queries w)); [|done].
  by intros [= <- <-].
Qed.

(** C7. Once a model has been created, creating it again returns the same
    class object and changes nothing: the device is not queried and no class
    is made. And the columns of a model do not depend on the order in which
    the device lists its variables: two outputs with the same key/value
    pairs give the same columns. *)
Theorem schema_derivation_memoized :
  (forall (w w1 : world) (m : model),
     create_static_model upsc w = (Ok m, w1) ->
     create_static_model upsc w1 = (Ok m, w1))
  ∧ (forall (w w1 : world) (m : model),
       create_dynamic_model upsc w = (Ok m, w1) ->
       create_dynamic_model upsc w1 = (Ok m, w1))
  ∧ (forall d1 d2 : odict string,
       NoDup d1.*1 -> d1 ≡ₚ d2 ->
       static_columns (odict_restrict STATIC_FIELDS d1)
       = static_columns (odict_restrict STATIC_FIELDS d2)
       ∧ dynamic_columns (dynamic_variables d1)
         = dynamic_columns (dynamic_variables d2)).
Proof.
  split_and!.
  - intros w w1 m Hc%create_static_model_cached.
    unfold create_static_model. mstep. by rewrite Hc.
  - intros w w1 m Hc%create_dynamic_model_cached.
    unfold create_dynamic_model. mstep. by rewrite Hc.
  - intros d1 d2 Hnd Hp. split.
    + by apply static_columns_permutation.
    + by apply dynamic_columns_permutation.
Qed.

(** *** Daily aggregation, once per date *)

Lemma should_aggregate_daily_cases (t : datetime) (self : UPSDataCache)
  (due : bool) (self' : UPSDataCache) :
  should_aggregate_daily tz t self = (due, self') ->
  (due = true
   ∧ last_daily_aggregation self ≠ Some (dt_date (astimezone tz t))
   ∧ last_daily_aggregation self' = Some (dt_date (astimezone tz t)))
  ∨ (due = false ∧ self' = self).
Proof.
  unfold should_aggregate_daily.
  destruct (_ && _); [|intros [= <- <-]; by right].
  case_bool_decide; intros [= <- <-]; [by left|by right].
Qed.

(** After an aggregation for date [d0], checks at dates from [d0] on
    aggregate only for later dates, in increasing order. *)
Lemma daily_aggregation_dates_after (times : list datetime)
  (self : UPSDataCache) (d0 : Z) :
  last_daily_aggregation self = Some d0 ->
  Sorted Z.le (d0 :: (dt_date ∘ astimezone tz <$> times)) ->
  Sorted Z.lt (d0 :: daily_aggregation_dates tz times self).
Proof.
  revert self d0. induction times as [|t times IH]; intros self d0 Hlast Hs.
  { simpl. by repeat constructor. }
  rewrite fmap_cons in Hs. simpl.
  apply Sorted_inv in Hs as [Hs Hhd]. apply HdRel_inv in Hhd. simpl in Hhd.
  destruct (should_aggregate_daily tz t self) as [due self'] eqn:Hdue.
  apply should_aggregate_daily_cases in Hdue
    as [(-> & Hne & Hlast') | (-> & ->)].
  - constructor.
    + by apply IH.
    + constructor. rewrite Hlast in Hne.
      assert (d0 ≠ dt_date (astimezone tz t)) by congruence. lia.
  - apply IH; [done|]. apply Sorted_inv in Hs as [Hs Hhd'].
    constructor; [done|].
    destruct Hhd' as [|d ds Hd]; constructor. simpl in Hd. lia.
Qed.

Lemma daily_aggregation_dates_increasing (times : list datetime)
  (self : UPSDataCache) :
  Sorted Z.le (dt_date ∘ astimezone tz <$> times) ->
  Sorted Z.lt (daily_aggregation_dates tz times self).
Proof.
  revert self. induction times as [|t times IH]; intros self Hs.
  { constructor. }
  simpl. destruct (should_aggregate_daily tz t self) as [due self'] eqn:Hdue.
  apply should_aggregate_daily_cases in Hdue
    as [(-> & Hne & Hlast') | (-> & ->)].
  - by apply daily_aggregation_dates_after.
  - apply IH. rewrite fmap_cons in Hs. by apply Sorted_inv in Hs as [Hs _].
Qed.

(** C6, as the code has it. For checks made one after the other, at times
    whose local calendar dates do not decrease, [should_aggregate_daily]
    answers [True] at most once for a date: the dates for which it does are
    strictly increasing, so none occurs twice, however many checks fall in
    the first minute of the day. *)
Theorem daily_aggregation_once_per_date (times : list datetime)
  (self : UPSDataCache) :
  Sorted Z.le (dt_date ∘ astimezone tz <$> times) ->
  Sorted Z.lt (daily_aggregation_dates tz times self)
  ∧ NoDup (daily_aggregation_dates tz times self).
Proof.
  intros Hs. pose proof (daily_aggregation_dates_increasing times self Hs) as Hi.
  split; [done|].
  apply Sorted_StronglySorted in Hi; [|intros ???; lia].
  induction Hi as [|d ds Hss IH Hall]; constructor; [|done].
  intros Hin. rewrite Forall_forall in Hall. specialize (Hall d Hin). lia.
Qed.


(** *** Averages of the buffered window *)

Lemma frame_averages_numeric (rows : list (gmap string pyval)) (col : string) :
  col ∈ df_columns rows -> is_numeric_col rows col = true ->
  frame_averages rows !! col
  = Some (VFloat (np_round2 (series_mean (to_float <$> df_column rows col)))).
Proof.
  intros Hin Hnum. unfold frame_averages.
  rewrite lookup_union_r.
  - apply lookup_set_to_map; [by intros ? ? _ _ [=]|].
    exists col. split; [|done]. by apply elem_of_filter.
  - apply eq_None_not_Some. intros [v Hv].
    apply lookup_set_to_map in Hv as (c & Hc & [= -> _]);
      [|by intros ? ? _ _ [=]].
    apply elem_of_difference in Hc as [Hc _].
    apply elem_of_filter in Hc as [Hc _]. congruence.
Qed.

Lemma frame_averages_last (rows : list (gmap string pyval)) (col : string) :
  col ∈ df_columns rows -> is_numeric_col rows col = false ->
  col ≠ "timestamp" ->
  frame_averages rows !! col
  = Some (default (VFloat NaN) (df_cell col <$> last rows)).
Proof.
  intros Hin Hnum Hne. unfold frame_averages.
  apply lookup_union_Some_l.
  apply lookup_set_to_map; [by intros ? ? _ _ [=]|].
  exists col. split; [|done].
  apply elem_of_difference. split.
  - by apply elem_of_filter.
  - by intros ?%elem_of_singleton.
Qed.

Section Window.

Variable field : string.
Hypothesis field_not_timestamp : field ≠ "timestamp".

Lemma df_cell_row (ts : datetime) (d : gmap string pyval) :
  df_cell field (df_row ts d) = default (VFloat NaN) (d !! field).
Proof.
  unfold df_cell, df_row. rewrite lookup_union.
  rewrite lookup_singleton_ne by done. by destruct (d !! field).
Qed.

Lemma df_column_rows_of (buffer : list (datetime * gmap string pyval)) :
  df_column (rows_of buffer) field
  = (fun p => default (VFloat NaN) (p.2 !! field)) <$> buffer.
Proof.
  unfold df_column, rows_of. rewrite <- list_fmap_compose.
  apply list_fmap_ext. intros _ [ts d] _. simpl. apply df_cell_row.
Qed.

Lemma buffered_field_is_column (buffer : list (datetime * gmap string pyval)) :
  buffered_values field buffer ≠ [] -> field ∈ df_columns (rows_of buffer).
Proof.
  induction buffer as [|[ts d] buffer IH]; [done|].
  unfold buffered_values, df_columns, rows_of in *. simpl.
  rewrite elem_of_union. destruct (d !! field) as [v|] eqn:Hd.
  - intros _. left. apply elem_of_dom. unfold df_row.
    exists v. by apply lookup_union_Some_l.
  - intros Hne. right. by apply IH.
Qed.

Lemma numeric_col_of_numbers (buffer : list (datetime * gmap string pyval)) :
  Forall (fun v => is_number v = true) (buffered_values field buffer) ->
  is_numeric_col (rows_of buffer) field = true.
Proof.
  unfold is_numeric_col. rewrite df_column_rows_of.
  induction buffer as [|[ts d] buffer IH]; [done|].
  unfold buffered_values. simpl. destruct (d !! field) as [v|]; simpl.
  - intros [Hv Hrest]%Forall_cons. rewrite Hv. by apply IH.
  - apply IH.
Qed.

Lemma non_numeric_col_of_other (buffer : list (datetime * gmap string pyval)) :
  Exists (fun v => is_number v = false) (buffered_values field buffer) ->
  is_numeric_col (rows_of buffer) field = false.
Proof.
  unfold is_numeric_col. rewrite df_column_rows_of.
  induction buffer as [|[ts d] buffer IH].
  { by intros ?%Exists_nil. }
  unfold buffered_values. simpl. destruct (d !! field) as [v|]; simpl.
  - intros [Hv | Hrest]%Exists_cons.
    + by rewrite Hv.
    + apply andb_false_iff. right. by apply IH.
  - apply IH.
Qed.

Lemma cells_of_column (buffer : list (datetime * gmap string pyval)) :
  to_float <$> df_column (rows_of buffer) field = field_cells field buffer.
Proof.
  rewrite df_column_rows_of. unfold field_cells. rewrite <- list_fmap_compose.
  apply list_fmap_ext. intros _ [ts d] _. simpl.
  by destruct (d !! field) as [[z|x|s|t]|].
Qed.

End Window.

Lemma add_df (timestamp : datetime) (d : gmap string pyval)
  (self : UPSDataCache) :
  data (add tz timestamp d self) = data self ++ [(timestamp, d)]
  ∧ df (add tz timestamp d self)
    = Some (rows_of (data self ++ [(timestamp, d)])).
Proof. unfold add. by destruct (next_save_time self). Qed.

(** C2, as the code has it. After a sample [d] has been added to a window
    of samples as the reader makes them, the averages of the buffered
    window exist, and for a field other than [timestamp] that some buffered
    sample carries: when all the buffered values of the field are numbers, the result
    is their mean rounded to 2 places, as pandas takes the one and numpy
    the other in binary64: the sum of the cells that are not NaN, divided
    by their number, times 100, to the nearest integer, divided by 100; it
    is NaN when no cell is a number other than NaN. When one of the values
    is not a number, the result is what the last buffered sample, [d], has
    for the field, NaN when it has nothing. *)
Theorem averages_of_window (timestamp : datetime) (d : gmap string pyval)
  (self : UPSDataCache) (field : string) :
  field ≠ "timestamp" ->
  let self' := add tz timestamp d self in
  let values := buffered_values field (data self') in
  values ≠ [] ->
  Forall (fun p => reader_sample p.2) (data self') ->
  exists averages,
    calculate_averages self' = Some averages
    ∧ (Forall (fun v => is_number v = true) values ->
       let cells := field_cells field (data self') in
       let counted := List.filter (fun x => negb (is_nan x)) cells in
       let total :=
         numpy_sum ((fun x => if is_nan x then Finite 0 else x) <$> cells) in
       averages !! field
       = Some (VFloat
                 (match counted with
                  | [] => NaN
                  | _ =>
                      fdiv (frint
                              (fmul (fdiv total
                                          (float_of_int
                                             (Z.of_nat (length counted))))
                                    (Finite 100)))
                           (Finite 100)
                  end)))
    ∧ (Exists (fun v => is_number v = false) values ->
       averages !! field = Some (default (VFloat NaN) (d !! field))).
Proof.
  intros Hfield self' values Hvalues _. subst self' values.
  destruct (add_df timestamp d self) as [Hdata Hdf].
  rewrite Hdata in *. set (buffer := data self ++ [(timestamp, d)]) in *.
  exists (frame_averages (rows_of buffer)). split_and!.
  - unfold calculate_averages. rewrite Hdf.
    destruct (rows_of buffer) eqn:Hrows; [|done].
    apply (f_equal length) in Hrows. unfold rows_of, buffer in Hrows.
    rewrite length_fmap, length_app in Hrows. simpl in Hrows. lia.
  - intros Hnum. cbv zeta.
    rewrite frame_averages_numeric;
      [|by apply buffered_field_is_column|by apply numeric_col_of_numbers].
    rewrite (cells_of_column field Hfield). unfold series_mean.
    by destruct (List.filter _ (field_cells field buffer)).
  - intros Hother.
    rewrite frame_averages_last;
      [|by apply buffered_field_is_column
       |by apply non_numeric_col_of_other|done].
    unfold rows_of, buffer. rewrite fmap_app. csimpl. rewrite last_snoc. simpl.
    by rewrite df_cell_row.
Qed.


(** *** The polling loop *)

(** [save_ups_data] contains every exception: it answers [True] when the
    reader returned a sample, and [False] with a message when it raised. *)
Lemma save_ups_data_run (now : Z) (w : world) :
  exists w',
    save_ups_data tz upsc db_fault now w =
    (match get_ups_data upsc w with
     | (Ok _, _) => Ok (true, None)
     | (Raise e, _) => Ok (false, Some ("Error saving data: " +:+ exn_str e))
     end, w').
Proof.
  unfold save_ups_data. rewrite try_except_run, bind_run.
  destruct (get_ups_data upsc w) as [[d|e] w1]; [|by eexists].
  mstep. rewrite bind_run, calculate_and_save_averages_run.
  destruct (calculate_and_save_averages_body _ _ _ _ _) as [[b|e] w2];
    by eexists.
Qed.

(** A turn of the loop sleeps one second whatever happened: the handlers
    that back off are never entered, because [save_ups_data] never raises. *)
Lemma polling_iteration_run (now failures : Z) (w : world) :
  exists w',
    polling_iteration tz upsc db_fault now failures w =
    (match get_ups_data upsc w with
     | (Ok _, _) => (0, 1)
     | (Raise _, _) => (failures + 1, 1)
     end, w').
Proof.
  unfold polling_iteration.
  destruct (save_ups_data_run now w) as [w' ->].
  destruct (get_ups_data upsc w) as [[d|e] w1]; by eexists.
Qed.


(** ** Further properties of the code *)

(** *** Boundaries *)

Lemma floor_plus_is_multiple (a m : Z) :
  0 < m -> (a - a mod m + m) mod m = 0.
Proof.
  intros Hm. pose proof (Z_div_mod_eq_full a m) as Ha.
  replace (a - a mod m + m) with ((a / m + 1) * m) by lia.
  apply Z_mod_mult.
Qed.

(** X1. The boundary computed from a time lies strictly after it and at most
    one minute (one hour) later, and is a whole minute (hour) on the wall
    clock of the zone; a time that is itself a whole minute gives the minute
    after it, not itself. *)
Theorem next_boundary_bounds (t : datetime) :
  (instant t < instant (get_next_minute tz t) <= instant t + MINUTE
   ∧ wall (get_next_minute tz t) mod MINUTE = 0)
  ∧ (instant t < instant (get_next_hour tz t) <= instant t + HOUR
     ∧ wall (get_next_hour tz t) mod HOUR = 0)
  ∧ (wall (astimezone tz t) mod MINUTE = 0 ->
     instant (get_next_minute tz t) = instant t + MINUTE).
Proof.
  assert (0 < MINUTE) as HM by reflexivity.
  assert (0 < HOUR) as HH by reflexivity.
  unfold get_next_minute, get_next_hour, wall, astimezone. simpl.
  pose proof (Z.mod_pos_bound (instant t + tz (instant t)) MINUTE HM).
  pose proof (Z.mod_pos_bound (instant t + tz (instant t)) HOUR HH).
  split_and!; try lia.
  - etransitivity;
      [|apply (floor_plus_is_multiple (instant t + tz (instant t)) MINUTE HM)].
    f_equal. lia.
  - etransitivity;
      [|apply (floor_plus_is_multiple (instant t + tz (instant t)) HOUR HH)].
    f_equal. lia.
Qed.

(** *** The reader *)

Lemma mapped_readings_has_key (raw_data : odict string) (key : string) :
  key ∈ raw_data.*1 -> is_Some (mapped_readings raw_data !! db_key key).
Proof.
  unfold mapped_readings.
  assert (forall (acc : gmap string pyval),
            is_Some (acc !! db_key key) ∨ key ∈ raw_data.*1 ->
            is_Some (fold_left
                       (fun data kv => <[db_key kv.1 := reading kv.2]> data)
                       raw_data acc !! db_key key)) as Hgen.
  { induction raw_data as [|[k v] raw_data IH]; intros acc Hacc; simpl.
    - destruct Hacc as [?|Hin]; [done|]. by apply elem_of_nil in Hin.
    - apply IH. rewrite fmap_cons, elem_of_cons in Hacc. simpl in Hacc.
      destruct Hacc as [Hacc | [-> | Hin]].
      + left. rewrite lookup_insert. case_decide; [done|exact Hacc].
      + left. rewrite lookup_insert_eq. done.
      + by right. }
  intros Hin. apply Hgen. by right.
Qed.

Lemma ups_data_of_raw_has_realpower (raw_data : odict string)
  (d : gmap string pyval) :
  ups_data_of_raw raw_data = Ok d -> is_Some (d !! "ups_realpower").
Proof.
  unfold ups_data_of_raw.
  destruct (odict_mem "ups.realpower" raw_data) eqn:Hmem.
  - intros [= <-]. apply bool_decide_eq_true in Hmem.
    apply odict_get_is_Some in Hmem.
    by apply (mapped_readings_has_key raw_data "ups.realpower").
  - destruct (real_power raw_data) as [p|[]]; intros [= <-];
      rewrite lookup_insert_eq; done.
Qed.

Lemma unconfigured_run (w : world) :
  falsy_str (_ups_name w) || falsy_str (_ups_host w) = true ->
  get_ups_data upsc w = (Ok unconfigured_data, w).
Proof.
  intros Hf. unfold get_ups_data. rewrite try_except_run. mstep.
  by rewrite Hf.
Qed.

Lemma configured_run (w : world) :
  falsy_str (_ups_name w) || falsy_str (_ups_host w) = false ->
  get_ups_data upsc w =
  (match upsc (w_queries w) with
   | Ok pairs =>
       match ups_data_of_raw (variables_of_pairs pairs) with
       | Ok d => Ok d
       | Raise e =>
           Raise (UPSDataError ("Failed to get UPS data: " +:+ exn_str e))
       end
   | Raise e => Raise (UPSDataError ("Failed to get UPS data: " +:+ exn_str e))
   end,
   set_w_queries (S (w_queries w)) w).
Proof.
  intros Hf. unfold get_ups_data. rewrite try_except_run. mstep.
  rewrite Hf. rewrite bind_run. unfold get_available_variables.
  destruct (upsc (w_queries w)) as [pairs|e]; [|done].
  by destruct (ups_data_of_raw (variables_of_pairs pairs)).
Qed.

Lemma get_ups_data_frame (w w' : world) (r : result (gmap string pyval)) :
  get_ups_data upsc w = (r, w') ->
  ups_data_cache w' = ups_data_cache w
  ∧ ups_dynamic_data w' = ups_dynamic_data w.
Proof.
  destruct (falsy_str (_ups_name w) || falsy_str (_ups_host w)) eqn:Hf.
  - rewrite (unconfigured_run w Hf). by intros [= <- <-].
  - rewrite (configured_run w Hf). by intros [= <- <-].
Qed.

(** X2. Whatever the device does, the reader either returns a sample that
    has [ups_realpower], or raises [UPSDataError] and nothing else; it does
    not touch the buffer or the table. *)
Theorem reader_outcome (w w' : world) (r : result (gmap string pyval)) :
  get_ups_data upsc w = (r, w') ->
  match r with
  | Ok d => is_Some (d !! "ups_realpower")
  | Raise e => exists msg, e = UPSDataError msg
  end
  ∧ ups_data_cache w' = ups_data_cache w
  ∧ ups_dynamic_data w' = ups_dynamic_data w.
Proof.
  destruct (falsy_str (_ups_name w) || falsy_str (_ups_host w)) eqn:Hf.
  - rewrite (unconfigured_run w Hf). intros [= <- <-]. by split_and!.
  - rewrite (configured_run w Hf). intros [= <- <-]. split_and!; try done.
    destruct (upsc (w_queries w)) as [pairs|e]; [|by eexists].
    destruct (ups_data_of_raw (variables_of_pairs pairs)) as [d|e] eqn:Hd;
      [|by eexists].
    by apply ups_data_of_raw_has_realpower in Hd.
Qed.

(** X3. A reader whose UPS name or host is not set (absent or empty) does
    not run the command: it returns the fixed sample of status ERROR, with
    zero load and power, and the state is unchanged. *)
Theorem unconfigured_reader (w : world) :
  falsy_str (_ups_name w) = true ∨ falsy_str (_ups_host w) = true ->
  exists d,
    get_ups_data upsc w = (Ok d, w)
    ∧ d !! "ups_status" = Some (VStr "ERROR")
    ∧ d !! "ups_load" = Some (VInt 0)
    ∧ d !! "ups_realpower" = Some (VInt 0).
Proof.
  intros Hf. exists unconfigured_data. split_and!.
  - apply unconfigured_run. destruct Hf as [-> | ->]; [done|].
    apply orb_true_r.
  - vm_compute. reflexivity.
  - vm_compute. reflexivity.
  - vm_compute. reflexivity.
Qed.


(** *** The sampler *)

(** X4. [save_ups_data] never raises. Its success flag tells whether the
    reader returned a sample, and nothing about the flush: it is [True],
    with no message, whenever the reader succeeded, also when the flush that
    followed failed; it is [False], with a message, exactly when the reader
    raised. *)
Theorem save_ups_data_outcome (now : Z) (w : world) :
  exists success error w',
    save_ups_data tz upsc db_fault now w = (Ok (success, error), w')
    ∧ (success = true <-> exists d w1, get_ups_data upsc w = (Ok d, w1))
    ∧ (success = true -> error = None)
    ∧ (success = false -> is_Some error).
Proof.
  destruct (save_ups_data_run now w) as [w' Hrun].
  destruct (get_ups_data upsc w) as [[d|e] w1] eqn:Hread.
  - exists true, None, w'. split_and!; try done. split; [eauto|done].
  - eexists false, _, w'. split_and!; [exact Hrun| |done|by eexists].
    split; [done|]. by intros (? & ? & [=]).
Qed.

(** X5. Whatever the clock, the device and the database do, the loop of
    [polling_thread] sleeps one second after every turn: it never backs
    off. *)
Theorem polling_thread_never_backs_off (clock : list Z) (w : world) :
  (polling_thread tz upsc db_fault clock w).1.1
  = replicate (length clock) 1.
Proof.
  unfold polling_thread. generalize 0 at 1. revert w.
  induction clock as [|now clock IH]; intros w failures; [done|].
  simpl. destruct (polling_iteration_run now failures w) as [w' ->].
  destruct (get_ups_data upsc w) as [[d|e] w1].
  - specialize (IH w' 0).
    destruct (polling_thread_from tz upsc db_fault clock 0 w')
      as [[sleeps f] w2]. simpl in *. by rewrite IH.
  - specialize (IH w' (failures + 1)).
    destruct (polling_thread_from tz upsc db_fault clock (failures + 1) w')
      as [[sleeps f] w2]. simpl in *. by rewrite IH.
Qed.

(** *** Calls before the boundary *)

Lemma not_due_run (current_time : datetime) (w : world) :
  is_save_time (ups_data_cache w) current_time = false ->
  exists w',
    calculate_and_save_averages tz upsc db_fault current_time w
    = (Ok false, w')
    ∧ same_buffer w w' ∧ same_rows w w'
    ∧ w_dbops w' = w_dbops w ∧ w_queries w' = w_queries w.
Proof.
  intros Hdue. rewrite calculate_and_save_averages_run.
  unfold calculate_and_save_averages_body. rewrite bind_run.
  unfold init_next_hour. mstep.
  destruct (next_hour (ups_data_cache w)); simpl.
  - unfold save_if_due. mstep. rewrite Hdue. simpl.
    eexists. split; [reflexivity|]. by repeat split.
  - unfold save_if_due. mstep. simpl.
    unfold is_save_time in *. simpl. rewrite Hdue. simpl.
    eexists. split; [reflexivity|]. by repeat split.
Qed.

Lemma add_next_save_time (timestamp : datetime) (d : gmap string pyval)
  (self : UPSDataCache) :
  next_save_time (add tz timestamp d self)
  = Some (default (get_next_minute tz timestamp) (next_save_time self)).
Proof.
  unfold add. destruct (next_save_time self) eqn:Hn; simpl; [|done].
  by rewrite Hn.
Qed.

(** X6. No second flush in a minute: after a successful flush at
    [current_time], a call at any time before the minute that follows
    [current_time], with a new sample in the buffer, answers [False]
    and reaches neither the device nor the database; the table keeps
    the rows it has. *)
Theorem no_second_flush_before_boundary (current_time later : datetime)
  (w w' : world) (d : gmap string pyval) :
  calculate_and_save_averages tz upsc db_fault current_time w
  = (Ok true, w') ->
  instant later < instant (get_next_minute tz current_time) ->
  exists w'',
    calculate_and_save_averages tz upsc db_fault later
      (set_ups_data_cache (add tz later d (ups_data_cache w')) w')
    = (Ok false, w'')
    ∧ ups_dynamic_data w'' = ups_dynamic_data w'
    ∧ w_dbops w'' = w_dbops w'
    ∧ w_queries w'' = w_queries w'.
Proof.
  intros Hrun Hlater.
  apply calculate_and_save_averages_cases in Hrun as [[_ Hs] | [[=] _]].
  destruct Hs as (nst & averages & m & rec & tail & _ & _ & _ & _ & _ & _
                  & _ & _ & _ & Hnext).
  destruct (not_due_run later
              (set_ups_data_cache (add tz later d (ups_data_cache w')) w'))
    as (w'' & Hrun' & _ & Hrows & Hdb & Hq).
  { unfold is_save_time.
    change (ups_data_cache (set_ups_data_cache ?c _)) with c.
    rewrite add_next_save_time, Hnext.
    unfold dt_ge. apply Z.leb_gt. exact Hlater. }
  exists w''. by split_and!.
Qed.

(** *** The buffer and its frame *)

Lemma add_in_step (timestamp : datetime) (d : gmap string pyval)
  (self : UPSDataCache) :
  buffer_in_step (add tz timestamp d self).
Proof.
  right. destruct (add_df timestamp d self) as [Hdata Hdf].
  rewrite Hdata, Hdf. split_and!.
  - intros Heq. apply (f_equal length) in Heq.
    rewrite length_app in Heq. simpl in Heq. lia.
  - done.
  - rewrite add_next_save_time. by eexists.
Qed.

(** X7. Between two calls of [save_ups_data] the frame always matches the
    buffer: either both are empty, or the frame has exactly one row per
    buffered sample and the next boundary is set. Every call keeps this,
    whatever the device and the database do. *)
Theorem save_ups_data_keeps_buffer_in_step (now : Z) (w w' : world)
  (r : result (bool * option string)) :
  buffer_in_step (ups_data_cache w) ->
  save_ups_data tz upsc db_fault now w = (r, w') ->
  buffer_in_step (ups_data_cache w').
Proof.
  intros Hstep. unfold save_ups_data. rewrite try_except_run, bind_run.
  destruct (get_ups_data upsc w) as [[d|e] w1] eqn:Hread;
    apply get_ups_data_frame in Hread as [Hcache _].
  2: { intros [= <- <-]. by rewrite Hcache. }
  mstep. rewrite bind_run.
  match goal with |- context [calculate_and_save_averages _ _ _ ?t ?w0] =>
    destruct (calculate_and_save_averages tz upsc db_fault t w0)
      as [[b|e] w2] eqn:Hrun;
    pose proof (add_in_step t d (ups_data_cache w1)) as Hadd
  end.
  2: { rewrite calculate_and_save_averages_run in Hrun.
       by destruct (calculate_and_save_averages_body _ _ _ _ _) as [[?|?] ?]. }
  apply calculate_and_save_averages_cases in Hrun
    as [[_ Hs] | (_ & (Hd & Hf & Hn & _) & _)]; intros [= <- <-].
  - destruct Hs as (? & ? & ? & ? & ? & _ & _ & _ & _ & _ & _ & _
                    & Hdata & Hdf & _).
    by left.
  - simpl in *. unfold buffer_in_step. rewrite Hd, Hf, Hn. exact Hadd.
Qed.

(** *** The schema registry *)


(** X9. The model a flush works with is the model of the registry: once
    [get_ups_model] has returned a class in a process that had none, both
    [get_ups_model] and [create_dynamic_model] return that same class,
    without a query of the device. *)
Theorem get_ups_model_is_registry_model (w w1 : world) (m : model) :
  _UPSData w = None ->
  get_ups_model upsc w = (Ok m, w1) ->
  get_ups_model upsc w1 = (Ok m, w1)
  ∧ create_dynamic_model upsc w1 = (Ok m, w1).
Proof.
  intros Hnone. unfold get_ups_model at 1. mstep. rewrite Hnone, bind_run.
  destruct (create_dynamic_model upsc w) as [[m'|e] w0] eqn:Hc; [|done].
  intros [= -> <-]. apply create_dynamic_model_cached in Hc. split.
  - unfold get_ups_model. by mstep.
  - unfold create_dynamic_model. mstep. simpl. by rewrite Hc.
Qed.


(** *** The dictionary of the device's output *)

Lemma odict_get_set {V : Type} (k k' : string) (v : V) (d : odict V) :
  odict_get k (odict_set k' v d)
  = if decide (k = k') then Some v else odict_get k d.
Proof.
  induction d as [|[k'' v''] d IH]; simpl.
  - by destruct (decide (k = k')).
  - destruct (decide (k' = k'')) as [->|Hne]; simpl.
    + by destruct (decide (k = k'')).
    + rewrite IH.
      destruct (decide (k = k'')) as [H1|H1], (decide (k = k')) as [H2|H2];
        try done. congruence.
Qed.

Lemma odict_set_keys_list {V : Type} (k : string) (v : V) (d : odict V) :
  (odict_set k v d).*1 = if decide (k ∈ d.*1) then d.*1 else d.*1 ++ [k].
Proof.
  induction d as [|[k' v'] d IH]; csimpl.
  - done.
  - destruct (decide (k = k')) as [->|Hk]; csimpl.
    + rewrite decide_True by (by left). done.
    + rewrite IH. destruct (decide (k ∈ d.*1)) as [Hin|Hin].
      * rewrite decide_True by (by right). done.
      * rewrite decide_False; [done|]. by intros [?|?]%elem_of_cons.
Qed.

Lemma variables_of_pairs_snoc (pairs : list (string * string))
  (kv : string * string) :
  variables_of_pairs (pairs ++ [kv])
  = odict_set kv.1 kv.2 (variables_of_pairs pairs).
Proof. unfold variables_of_pairs. by rewrite fold_left_app. Qed.

(** X10. The dictionary built from the output of the device has each key
    once, and when a variable is printed on several lines the value of the
    last of them is the one that is kept. *)
Theorem variables_of_pairs_last_wins (pairs : list (string * string)) :
  NoDup (variables_of_pairs pairs).*1
  ∧ forall key,
      odict_get key (variables_of_pairs pairs)
      = snd <$> last (filter (fun kv => kv.1 = key) pairs).
Proof.
  induction pairs as [|kv pairs [IHn IHg]] using rev_ind.
  { split; [constructor|done]. }
  rewrite variables_of_pairs_snoc. split.
  - rewrite odict_set_keys_list. case_decide as Hin; [done|].
    apply NoDup_app. split_and!; [done| |apply NoDup_singleton].
    by intros k Hk ->%list_elem_of_singleton.
  - intros key. rewrite odict_get_set, filter_app, filter_cons, filter_nil.
    case_decide as Hk.
    + subst. rewrite decide_True by done. by rewrite last_snoc.
    + rewrite decide_False by done. by rewrite app_nil_r, IHg.
Qed.


(** *** Daily rows *)

Lemma get_ups_model_cached_run (w : world) (m : model) :
  _UPSData w = Some m -> get_ups_model upsc w = (Ok m, w).
Proof. intros Hm. unfold get_ups_model. mstep. by rewrite Hm. Qed.

Lemma wall_with_wall (d : datetime) (w0 : Z) : wall (with_wall d w0) = w0.
Proof. unfold wall, with_wall. simpl. lia. Qed.

(** X11. With a model and a database that answers, the daily aggregation
    looks at the rows whose timestamp lies, on the wall clock, in the day
    that ends at the last local midnight (to which the microseconds of the
    current time are added, the code not resetting them). When none of them
    has an hourly average, or when the average SQLite takes of these is
    zero or NaN, it writes nothing. Otherwise it appends exactly one row,
    which has two fields only: the start of that day as timestamp, and the
    average rounded to 2 places as daily average. *)
Theorem daily_aggregation_row (current_time : datetime) (w : world)
  (m : model) :
  _UPSData w = Some m ->
  db_fault (w_dbops w) = None ->
  db_fault (S (w_dbops w)) = None ->
  let local_time := astimezone tz current_time in
  let midnight :=
    wall local_time - wall local_time mod DAY + wall local_time mod SECOND in
  let hours :=
    omap (fun r : record => non_null (r !! "ups_realpower_hrs"))
         (List.filter (of_day_before midnight) (ups_dynamic_data w)) in
  exists w',
    aggregate_daily_data tz upsc db_fault current_time w = (Ok tt, w')
    ∧ match hours with
      | [] => ups_dynamic_data w' = ups_dynamic_data w
      | _ =>
          let daily_data := sqlite_avg hours in
          if is_nan daily_data || negb (truthy (VFloat daily_data)) then
            ups_dynamic_data w' = ups_dynamic_data w
          else
            exists r,
              ups_dynamic_data w' = ups_dynamic_data w ++ [r]
              ∧ dom r = {["timestamp_tz"; "ups_realpower_days"]}
              ∧ r !! "timestamp_tz"
                = Some (VDatetime (with_wall local_time (midnight - DAY)))
              ∧ r !! "ups_realpower_days"
                = Some (VFloat (fround2 daily_data))
      end.
Proof.
  intros Hm Hq Hc local_time midnight hours.
  unfold aggregate_daily_data. rewrite try_except_run, bind_run.
  rewrite (get_ups_model_cached_run w m Hm).
  rewrite bind_run, query_window_run, Hq.
  fold local_time. fold midnight.
  assert (plus_timedelta (with_wall local_time midnight) (- DAY)
          = with_wall local_time (midnight - DAY)) as Hstart.
  { unfold plus_timedelta, with_wall. simpl. f_equal. lia. }
  rewrite Hstart.
  assert (List.filter (in_window (with_wall local_time (midnight - DAY))
                                 (with_wall local_time midnight))
                      (ups_dynamic_data w)
          = List.filter (of_day_before midnight) (ups_dynamic_data w)) as ->.
  { apply List.filter_ext. intros r. unfold in_window, of_day_before.
    destruct (r !! "timestamp_tz") as [[| | |t]|]; try done.
    by rewrite !wall_with_wall. }
  unfold sql_avg. rewrite omap_stored. fold hours.
  destruct hours as [|h hours'] eqn:Hh.
  { eexists. split; [reflexivity|done]. }
  cbv zeta.
  destruct (sqlite_avg (h :: hours')) as [q| | |] eqn:Havg.
  4: { eexists. split; [reflexivity|done]. }
  all: destruct (truthy (VFloat _)) eqn:Ht;
    [|eexists; split; [reflexivity|]; simpl; by rewrite ?Ht].
  all: rewrite add_and_commit_run; cbn [w_dbops set_w_dbops]; rewrite Hc;
    (eexists; split; [reflexivity|]); simpl; rewrite ?Ht; simpl;
    (eexists; split; [reflexivity|]);
    unfold UPSDynamicData_init; rewrite lookup_insert_eq;
    (split_and!;
     [rewrite dom_insert_L, dom_singleton_L; set_solver
     |by rewrite lookup_insert_ne
     |by rewrite lookup_insert_eq]).
Qed.

(** *** Bootstrap of the table *)

Lemma query_first_run (w : world) :
  query_first db_fault w =
  (match db_fault (w_dbops w) with
   | Some e => Raise e
   | None => Ok (head (ups_dynamic_data w))
   end,
   set_w_dbops (S (w_dbops w)) w).
Proof.
  unfold query_first. rewrite bind_run, db_execute_run.
  by destruct (db_fault (w_dbops w)).
Qed.

Lemma insert_initial_dynamic_data_run (now : Z) (w : world) :
  exists w',
    insert_initial_dynamic_data tz upsc db_fault now w = (Ok tt, w')
    ∧ ups_data_cache w' = ups_data_cache w
    ∧ (ups_dynamic_data w' = ups_dynamic_data w
       ∨ ups_dynamic_data w = [] ∧ exists r, ups_dynamic_data w' = [r]).
Proof.
  unfold insert_initial_dynamic_data. rewrite try_except_run, bind_run.
  destruct (get_ups_model upsc w) as [[m|e] w1] eqn:Hm;
    apply get_ups_model_frame in Hm as (Hc1 & Hr1 & Hd1).
  2: { exists w1. split_and!; auto. }
  rewrite bind_run, query_first_run.
  destruct (db_fault (w_dbops w1)) as [e|].
  { eexists. split; [reflexivity|]. simpl. split_and!; auto. }
  destruct (head (ups_dynamic_data w1)) as [r|] eqn:Hhead.
  { eexists. split; [reflexivity|]. simpl. split_and!; auto. }
  rewrite bind_run.
  match goal with |- context [get_available_variables upsc ?w0] =>
    destruct (get_available_variables upsc w0) as [[vars|e] w2] eqn:Hv;
    apply get_available_variables_frame in Hv as (Hc2 & Hr2 & Hd2)
  end; simpl in *.
  2: { exists w2. split_and!; [done|congruence|left; congruence]. }
  rewrite bind_run. case_bool_decide as Hsetter.
  { exists w2. split_and!; [done|congruence|left; congruence]. }
  cbn [mret M_ret]. rewrite add_and_commit_run.
  destruct (db_fault (w_dbops w2)) as [e|]; simpl.
  { eexists. split; [reflexivity|]. simpl. split_and!; [congruence|].
    left. congruence. }
  eexists. split; [reflexivity|]. simpl. split_and!; [congruence|].
  right. apply head_None in Hhead. rewrite Hr2, Hhead. split; [congruence|].
  by eexists.
Qed.

(** X12. The bootstrap of the measurement table never raises and leaves the
    buffer alone. It inserts nothing into a table that has rows, and at most
    one row into an empty one: after the two calls that [init_database]
    makes, a table that had rows is unchanged and a table that was empty has
    at most one row. *)
Theorem bootstrap_inserts_at_most_once (now1 now2 : Z) (w : world) :
  exists w1 w2,
    insert_initial_dynamic_data tz upsc db_fault now1 w = (Ok tt, w1)
    ∧ insert_initial_dynamic_data tz upsc db_fault now2 w1 = (Ok tt, w2)
    ∧ ups_data_cache w2 = ups_data_cache w
    ∧ (ups_dynamic_data w ≠ [] -> ups_dynamic_data w2 = ups_dynamic_data w)
    ∧ (ups_dynamic_data w = [] -> (length (ups_dynamic_data w2) <= 1)%nat).
Proof.
  destruct (insert_initial_dynamic_data_run now1 w) as (w1 & H1 & Hc1 & Hr1).
  destruct (insert_initial_dynamic_data_run now2 w1) as (w2 & H2 & Hc2 & Hr2).
  exists w1, w2. split_and!; [done|done|congruence| |].
  - intros Hne. destruct Hr1 as [Hr1 | [Hr1 _]]; [|done].
    destruct Hr2 as [Hr2 | [Hr2 _]]; congruence.
  - intros Hempty.
    destruct Hr1 as [Hr1 | [_ [r Hr1]]], Hr2 as [Hr2 | [Hr2 [r' Hr2']]].
    + rewrite Hr2, Hr1, Hempty. simpl. lia.
    + rewrite Hr2'. simpl. lia.
    + rewrite Hr2, Hr1. simpl. lia.
    + rewrite Hr2'. simpl. lia.
Qed.


(** *** Names of the static fields *)

Lemma nut_key_db_key (key : string) :
  "_"%char ∉ list_ascii_of_string key -> nut_key (db_key key) = key.
Proof.
  unfold nut_key, db_key. induction key as [|c key IH]; simpl; [done|].
  rewrite not_elem_of_cons. intros [Hc Hkey]. rewrite IH by done.
  f_equal. destruct (Ascii.eqb c ".") eqn:Hdot.
  - apply Ascii.eqb_eq in Hdot. by subst.
  - destruct (Ascii.eqb c "_") eqn:Hu; [|done].
    apply Ascii.eqb_eq in Hu. by subst.
Qed.

Lemma static_fields_without_underscore (key : string) :
  key ∈ STATIC_FIELDS -> key ≠ "device.usb_version" ->
  "_"%char ∉ list_ascii_of_string key.
Proof.
  intros Hin Hne.
  assert (Forall (fun k => k = "device.usb_version"
                           ∨ "_"%char ∉ list_ascii_of_string k)
                 STATIC_FIELDS) as Hall.
  { apply (bool_decide_unpack _). vm_compute. reflexivity. }
  rewrite Forall_forall in Hall. by destruct (Hall key Hin).
Qed.

(** X13. [is_static_field] recognises the column of every static field but
    one: the column name of [device.usb_version], which has an underscore of
    its own, is read back as [device.usb.version] and is not recognised. For
    a name without underscore the column name gives the name back. *)
Theorem is_static_field_of_column (key : string) :
  key ∈ STATIC_FIELDS ->
  is_static_field (db_key key) = bool_decide (key ≠ "device.usb_version")
  ∧ (key ≠ "device.usb_version" -> nut_key (db_key key) = key).
Proof.
  intros Hin. split.
  - destruct (decide (key = "device.usb_version")) as [->|Hne].
    + vm_compute. reflexivity.
    + rewrite (bool_decide_eq_true_2 _ Hne). unfold is_static_field.
      apply bool_decide_eq_true_2.
      by rewrite nut_key_db_key by (by apply static_fields_without_underscore).
  - intros Hne. by apply nut_key_db_key, static_fields_without_underscore.
Qed.




(** *** Event messages *)

Lemma starts_with_spec (p s : list ascii) :
  starts_with p s = true <-> exists r, s = p ++ r.
Proof.
  revert s. induction p as [|a p IH]; intros s; simpl.
  - split; [eauto|done].
  - destruct s as [|b s].
    + split; [done|]. by intros [r [=]].
    + rewrite andb_true_iff, Ascii.eqb_eq, IH. split.
      * intros [-> [r ->]]. eauto.
      * intros [r [= -> ->]]. eauto.
Qed.

Lemma contains_spec (p s : list ascii) :
  contains p s = true <-> infix_of p s.
Proof.
  unfold infix_of. induction s as [|c s IH]; simpl.
  - rewrite orb_false_r, starts_with_spec. split.
    + intros [r Hr]. exists [], r. done.
    + intros (l & r & Hs). symmetry in Hs.
      apply app_eq_nil in Hs as [-> Hs]. eauto.
  - rewrite orb_true_iff, starts_with_spec, IH. split.
    + intros [[r ->] | (l & r & ->)].
      * by exists [], r.
      * by exists (c :: l), r.
    + intros ([|c' l] & r & Hs).
      * left. eauto.
      * right. injection Hs as -> ->. eauto.
Qed.

Lemma infix_of_trans (a b c : list ascii) :
  infix_of a b -> infix_of b c -> infix_of a c.
Proof.
  intros (l1 & r1 & ->) (l2 & r2 & ->). exists (l2 ++ l1), (r1 ++ r2).
  by rewrite <- !app_assoc.
Qed.

Lemma before_first_prefix (sep s : list ascii) :
  exists r, s = before_first sep s ++ r.
Proof.
  induction s as [|c s [r IH]]; simpl.
  - destruct (starts_with sep []); by exists [].
  - destruct (starts_with sep (c :: s)); [by eexists|].
    exists r. simpl. by rewrite <- IH.
Qed.

Lemma after_first_suffix (sep s : list ascii) :
  exists l, s = l ++ after_first sep s.
Proof.
  induction s as [|c s [l IH]]; simpl.
  - destruct (starts_with sep []).
    + exists []. by rewrite drop_nil.
    + by exists [].
  - destruct (starts_with sep (c :: s)).
    + exists (take (length sep) (c :: s)). by rewrite take_drop.
    + exists (c :: l). simpl. by rewrite <- IH.
Qed.

Lemma split_second_infix (sep s : list ascii) :
  infix_of (split_second sep s) s.
Proof.
  unfold split_second.
  destruct (after_first_suffix sep s) as [l Hl].
  destruct (before_first_prefix sep (after_first sep s)) as [r Hr].
  exists l, r. by rewrite <- Hr.
Qed.

(** The text before the first occurrence of a separator has no occurrence
    of it. *)
Lemma before_first_no_sep (sep s : list ascii) :
  sep ≠ [] -> contains sep (before_first sep s) = false.
Proof.
  intros Hsep.
  assert (starts_with sep [] = false) as Hnil by (by destruct sep).
  induction s as [|c s IH]; simpl.
  - rewrite Hnil. simpl. by rewrite Hnil.
  - destruct (starts_with sep (c :: s)) eqn:Hstart; simpl.
    + by rewrite Hnil.
    + rewrite IH, orb_false_r. apply not_true_is_false.
      intros [r Hr]%starts_with_spec.
      destruct (before_first_prefix sep s) as [r' Hr'].
      assert (starts_with sep (c :: s) = true) as Habs; [|congruence].
      apply starts_with_spec. exists (r ++ r').
      rewrite app_assoc, <- Hr. simpl. by rewrite <- Hr'.
Qed.

Lemma drop_prefix_infix (sep : string) (m : list ascii) :
  infix_of (drop_prefix sep m) m.
Proof.
  unfold drop_prefix. destruct (contains _ m).
  - apply split_second_infix.
  - by exists [], []; rewrite app_nil_r.
Qed.

Lemma drop_prefix_no_sep (sep : string) (m : list ascii) :
  list_ascii_of_string sep ≠ [] ->
  contains (list_ascii_of_string sep) (drop_prefix sep m) = false.
Proof.
  intros Hsep. unfold drop_prefix.
  destruct (contains (list_ascii_of_string sep) m) eqn:Hc; [|done].
  by apply before_first_no_sep.
Qed.

Lemma not_contains_infix (p t s : list ascii) :
  infix_of t s -> contains p s = false -> contains p t = false.
Proof.
  intros Hts Hs. apply not_true_is_false. intros Ht%contains_spec.
  assert (contains p s = true) as Habs; [|congruence].
  apply contains_spec. by apply (infix_of_trans p t s).
Qed.

Section EventTypeProperties.

Variable py_lower : list ascii -> list ascii.
Variable py_strip : list ascii -> list ascii.
Hypothesis py_strip_infix : forall s, infix_of (py_strip s) s.

Lemma event_text_no_ups (event_message : string) :
  contains (list_ascii_of_string "ups ")
           (event_text py_lower py_strip event_message) = false.
Proof.
  unfold event_text.
  apply (not_contains_infix _ _ _ (py_strip_infix _)).
  apply (not_contains_infix _ _ _ (drop_prefix_infix ": " _)).
  apply (not_contains_infix _ _ _ (drop_prefix_infix "@localhost" _)).
  by apply (drop_prefix_no_sep "ups ").
Qed.

Lemma event_text_no_ups_pattern (event_message : string) (rest : string) :
  contains (list_ascii_of_string ("ups " +:+ rest))
           (event_text py_lower py_strip event_message) = false.
Proof.
  apply not_true_is_false. intros Hc%contains_spec.
  pose proof (event_text_no_ups event_message) as Hno.
  assert (contains (list_ascii_of_string "ups ")
                   (event_text py_lower py_strip event_message) = true)
    as Habs; [|congruence].
  apply contains_spec. refine (infix_of_trans _ _ _ _ Hc).
  exists [], (list_ascii_of_string rest). simpl. done.
Qed.

(** X15. [get_event_type] never answers OVERLOAD, FAULT or OFF, and answers
    STARTUP only for a message that has [startup]: the patterns of these
    branches begin with [ups ], and the text that reaches the tests has no
    [ups ] left, whether the prefix was removed or was never there. *)
Theorem event_type_never_ups_branches (event_message : string) :
  (get_event_type py_lower py_strip event_message
   ∉ ["OVERLOAD"; "FAULT"; "OFF"])
  ∧ (get_event_type py_lower py_strip event_message = "STARTUP" ->
     contains (list_ascii_of_string "startup")
              (event_text py_lower py_strip event_message) = true).
Proof.
  pose proof (event_text_no_ups_pattern event_message "overloaded") as H1.
  pose proof (event_text_no_ups_pattern event_message "failed") as H2.
  pose proof (event_text_no_ups_pattern event_message "off") as H3.
  pose proof (event_text_no_ups_pattern event_message "initialized") as H4.
  change ("ups " +:+ "overloaded") with "ups overloaded" in H1.
  change ("ups " +:+ "failed") with "ups failed" in H2.
  change ("ups " +:+ "off") with "ups off" in H3.
  change ("ups " +:+ "initialized") with "ups initialized" in H4.
  unfold get_event_type. cbv beta zeta. rewrite H1, H2, H3, H4.
  cbn [orb].
  repeat match goal with
         | |- context [if contains ?p ?m then _ else _] =>
             destruct (contains p m) eqn:?
         end;
    (split;
     [intros Hin;
      repeat (apply elem_of_cons in Hin as [Hin|Hin]; [discriminate Hin|]);
      by apply elem_of_nil in Hin
     |first [discriminate | done]]).
Qed.

End EventTypeProperties.


(** *** What a flush copies *)

Lemma save_if_due_with_model (current_time : datetime) (w w' : world)
  (m : model) :
  _UPSData w = Some m ->
  save_if_due tz upsc db_fault current_time w = (Ok true, w') ->
  exists averages dynamic_data tail,
    calculate_averages (ups_data_cache w) = Some averages
    ∧ rolled_up tz current_time
        (default (get_next_hour tz current_time)
                 (next_hour (ups_data_cache w)))
        averages (ups_dynamic_data w)
        (minute_record m (next_save_time (ups_data_cache w)) averages)
        dynamic_data
    ∧ ups_dynamic_data w' = ups_dynamic_data w ++ dynamic_data :: tail.
Proof.
  intros Hm. unfold save_if_due. mstep.
  destruct (is_save_time (ups_data_cache w) current_time); simpl; [|done].
  destruct (calculate_averages (ups_data_cache w)) as [averages|]; [|done].
  case_bool_decide; [done|].
  mstep. rewrite (get_ups_model_cached_run w m Hm).
  rewrite bind_run. case_bool_decide; [done|]. cbn [mret M_ret]. mstep.
  match goal with |- context [hourly_rollup _ _ _ _ ?rec w] =>
    destruct (hourly_rollup tz db_fault current_time averages rec w)
      as [[rec'|e] w2] eqn:Hh end;
    apply hourly_rollup_frame in Hh as (Hb2 & Hr2 & Hrec); [|done].
  mstep. rewrite add_and_commit_run.
  destruct (db_fault (w_dbops w2)) as [e|]; [done|].
  mstep.
  match goal with |- context [after_commit _ _ _ _ ?w0] =>
    destruct (after_commit_run current_time w0)
      as (w3 & tail & -> & _ & _ & _ & Hrows & _) end.
  simpl. intros [= <-]. exists averages, rec', tail.
  split_and!; [done|by apply Hrec|].
  rewrite Hrows. simpl. unfold same_rows in Hr2. rewrite Hr2.
  by rewrite <- app_assoc.
Qed.

(** X16. What a flush writes, in a process whose model [m] exists: the
    record it commits has, for every averaged field that is a column of
    [m], the averaged value (the hourly average apart, which the rollup may
    overwrite), and has nothing for a field that is not a column: averaged
    fields outside the schema are dropped. *)
Theorem flush_copies_schema_fields (current_time : datetime) (w w' : world)
  (m : model) :
  _UPSData w = Some m ->
  calculate_and_save_averages tz upsc db_fault current_time w = (Ok true, w') ->
  exists averages dynamic_data tail,
    calculate_averages (ups_data_cache w) = Some averages
    ∧ ups_dynamic_data w' = ups_dynamic_data w ++ dynamic_data :: tail
    ∧ (forall key value,
         key ∈ dom (columns m) -> key ≠ "ups_realpower_hrs" ->
         averages !! key = Some value ->
         dynamic_data !! key = Some value)
    ∧ (forall key,
         key ∉ dom (columns m) ->
         key ∉ ["timestamp_tz"; "ups_realpower_days"; "ups_realpower_hrs"] ->
         dynamic_data !! key = None).
Proof.
  intros Hm. rewrite calculate_and_save_averages_run.
  destruct (calculate_and_save_averages_body _ _ _ _ _) as [[b|e] w1] eqn:Hb;
    [|done].
  intros [= -> <-]. unfold calculate_and_save_averages_body in Hb.
  rewrite bind_run in Hb.
  destruct (init_next_hour_run current_time w)
    as (w0 & Hinit & (Hd0 & Hdf0 & Hn0 & _) & Hr0 & _ & _).
  rewrite Hinit in Hb.
  assert (_UPSData w0 = Some m) as Hm0.
  { unfold init_next_hour in Hinit. rewrite bind_run in Hinit. simpl in Hinit.
    destruct (next_hour (ups_data_cache w)); by injection Hinit as <-. }
  apply (save_if_due_with_model _ _ _ m Hm0) in Hb
    as (averages & rec & tail & Havg & Hroll & Hrows).
  exists averages, rec, tail. unfold same_rows in Hr0.
  split_and!.
  - by rewrite <- (calculate_averages_same_df _ _ Hdf0).
  - by rewrite <- Hr0.
  - intros key value Hcol Hkey Hv.
    rewrite (rolled_up_lookup _ _ _ _ _ _ key Hroll) by done.
    unfold minute_record, set_averages.
    apply lookup_union_Some_l. by apply map_lookup_filter_Some.
  - intros key Hcol Hkey.
    rewrite (rolled_up_lookup _ _ _ _ _ _ key Hroll) by set_solver.
    unfold minute_record, set_averages.
    apply lookup_union_None. split.
    + apply map_lookup_filter_None. right. intros ? _. done.
    + unfold UPSDynamicData_init. rewrite lookup_empty.
      destruct (next_save_time (ups_data_cache w0)); simpl.
      * rewrite !lookup_insert_ne by set_solver. done.
      * rewrite lookup_delete_ne by set_solver.
        rewrite lookup_insert_ne by set_solver. done.
Qed.


(** *** Rounding of the readings *)

Lemma rint_error (q : Q) : (Qabs (inject_Z (rint q) - q) <= 1 # 2)%Q.
Proof.
  pose proof (Qfloor_le q) as Hlo. pose proof (Qlt_floor q) as Hhi.
  rewrite inject_Z_plus in Hhi. change (inject_Z 1) with 1%Q in Hhi.
  apply Qabs_Qle_condition. unfold rint.
  destruct (Qcompare_spec (q - inject_Z (Qfloor q)) (1 # 2)) as [He|Hl|Hg].
  - destruct (Z.even (Qfloor q)).
    + split; lra.
    + rewrite inject_Z_plus. change (inject_Z 1) with 1%Q. split; lra.
  - split; lra.
  - rewrite inject_Z_plus. change (inject_Z 1) with 1%Q. split; lra.
Qed.

Lemma round2_error (q : Q) : (Qabs (round2 q - q) <= 1 # 200)%Q.
Proof.
  pose proof (rint_error (q * 100)) as Hr.
  apply Qabs_Qle_condition in Hr. apply Qabs_Qle_condition.
  unfold round2. rewrite (Qmake_Qdiv (rint (q * 100)) 100).
  change (inject_Z (Z.pos 100)) with 100%Q.
  destruct Hr as [Hlo Hhi].
  generalize dependent (inject_Z (rint (q * 100))). intros z Hlo Hhi.
  unfold Qdiv. change (/ 100)%Q with (1 # 100)%Q.
  split; lra.
Qed.

(** X17. A raw value that is a finite float is stored in the sample as the
    float nearest to a whole number of hundredths, which differs from the
    value by at most 0.005; a raw value, an ASCII text, that is not a float
    is stored as the string it is. *)
Theorem reading_is_rounded (value : string) :
  (forall q,
     py_float value = Some (Finite q) ->
     exists hundredths : Z,
       reading value = VFloat (fl (Qmake hundredths 100))
       ∧ (Qabs (Qmake hundredths 100 - q) <= 1 # 200)%Q)
  ∧ (is_ascii value = true ->
     py_float value = None -> reading value = VStr value).
Proof.
  unfold reading. split.
  - intros q ->. exists (rint (q * 100)). split; [done|].
    apply (round2_error q).
  - by intros _ ->.
Qed.


(** *** The second daily aggregation *)

Lemma query_hourly_run (lo hi : datetime) (w : world) :
  query_hourly db_fault lo hi w =
  (match db_fault (w_dbops w) with
   | Some e => Raise e
   | None =>
       Ok (List.filter
             (fun r : record =>
                in_window lo hi r
                && bool_decide (is_Some (stored "ups_realpower_hrs" r)))
             (ups_dynamic_data w))
   end,
   set_w_dbops (S (w_dbops w)) w).
Proof.
  unfold query_hourly. rewrite bind_run, db_execute_run.
  by destruct (db_fault (w_dbops w)).
Qed.

(** X18. [calculate_daily_power] never raises and leaves the buffer alone.
    It appends at most one row, which has two fields only: as timestamp the
    local midnight that began the day before the day of the clock, and a
    daily average. With a model, a database that answers and, among the
    rows whose timestamp lies on the wall clock in the day that starts at
    that midnight, rows with an hourly average that are all numbers, the
    row is appended and holds [round(total / k, 2)] for their sum and their
    number, also when that is zero. *)
Theorem calculate_daily_power_outcome (now : Z) (w : world) :
  let previous_day := plus_timedelta (datetime_now tz now) (- DAY) in
  let start_date :=
    with_wall previous_day (wall previous_day - wall previous_day mod DAY) in
  let hourly_data :=
    List.filter
      (fun r : record =>
         of_day_before (wall start_date + DAY) r
         && bool_decide (is_Some (non_null (r !! "ups_realpower_hrs"))))
      (ups_dynamic_data w) in
  let hrs :=
    omap (fun r : record => non_null (r !! "ups_realpower_hrs")) hourly_data in
  exists w',
    calculate_daily_power tz upsc db_fault now w = (Ok tt, w')
    ∧ ups_data_cache w' = ups_data_cache w
    ∧ (ups_dynamic_data w' = ups_dynamic_data w
       ∨ exists r,
           ups_dynamic_data w' = ups_dynamic_data w ++ [r]
           ∧ dom r = {["timestamp_tz"; "ups_realpower_days"]}
           ∧ r !! "timestamp_tz" = Some (VDatetime start_date))
    ∧ (wall start_date mod DAY = 0
       ∧ now - 2 * DAY < instant start_date <= now - DAY)
    ∧ (forall m,
         _UPSData w = Some m ->
         db_fault (w_dbops w) = None ->
         db_fault (S (w_dbops w)) = None ->
         hourly_data ≠ [] ->
         Forall (fun v => is_summand v = true) hrs ->
         forall daily_power,
           fdiv_int (builtin_sum (to_float <$> hrs))
                    (Z.of_nat (length hourly_data)) = Ok daily_power ->
           exists r,
             ups_dynamic_data w' = ups_dynamic_data w ++ [r]
             ∧ r !! "ups_realpower_days"
               = Some (VFloat (fround2 daily_power))).
Proof.
  intros previous_day start_date hourly_data hrs.
  assert (0 < DAY) as HD by reflexivity.
  assert (wall start_date mod DAY = 0
          ∧ now - 2 * DAY < instant start_date <= now - DAY) as Htime.
  { pose proof (Z.mod_pos_bound (wall previous_day) DAY HD) as Hb.
    pose proof (Z.div_mod (wall previous_day) DAY ltac:(lia)) as Hdm.
    unfold start_date, with_wall, wall in *. simpl in *. split; [|lia].
    replace (now + - DAY + tz now - (now + - DAY + tz now) mod DAY - tz now
             + tz now)
      with ((now + - DAY + tz now) / DAY * DAY) by lia.
    apply Z.mod_mul. lia. }
  unfold calculate_daily_power. rewrite try_except_run, bind_run.
  destruct (get_ups_model upsc w) as [[m|e] w1] eqn:Hm.
  2: { pose proof Hm as Hframe.
       apply get_ups_model_frame in Hframe as (Hc1 & Hr1 & Hd1).
       exists w1. split_and!; [done|done|by left|apply Htime..|].
       intros m' Hm'. rewrite (get_ups_model_cached_run w m' Hm') in Hm.
       done. }
  cbv zeta. fold previous_day. fold start_date.
  rewrite bind_run, query_hourly_run.
  pose proof Hm as Hframe.
  apply get_ups_model_frame in Hframe as (Hc1 & Hr1 & Hd1).
  rewrite Hr1, Hd1.
  assert (List.filter
            (fun r : record =>
               in_window start_date (plus_timedelta start_date DAY) r
               && bool_decide (is_Some (stored "ups_realpower_hrs" r)))
            (ups_dynamic_data w) = hourly_data) as ->.
  { apply List.filter_ext. intros r. rewrite stored_non_null. f_equal.
    unfold in_window, of_day_before.
    destruct (r !! "timestamp_tz") as [[| | |t]|]; try done.
    rewrite wall_plus_timedelta. f_equal. f_equal. lia. }
  destruct (db_fault (w_dbops w)) as [e|] eqn:Hq.
  { eexists. split; [reflexivity|]. simpl.
    split_and!; [done|by left|apply Htime..|]. by intros. }
  cbv beta iota. rewrite omap_stored. fold hrs.
  destruct hourly_data as [|d hourly] eqn:Hh.
  { eexists. split; [reflexivity|]. simpl.
    split_and!; [done|by left|apply Htime..|]. by intros. }
  rewrite <- Hh.
  destruct (py_sum_cases hrs) as [[_ Hsum] | Hsum]; rewrite Hsum.
  2: { eexists. split; [reflexivity|]. simpl.
       split_and!; [done|by left|apply Htime..|].
       intros m' _ _ _ _ Hall. exfalso.
       unfold py_sum in Hsum.
       assert (forallb is_summand hrs = true) as Hb.
       { apply forallb_forall. intros v Hv%list_elem_of_In.
         rewrite Forall_forall in Hall. by apply Hall. }
       by rewrite Hb in Hsum. }
  destruct (fdiv_int (builtin_sum (to_float <$> hrs))
                     (Z.of_nat (length hourly_data)))
    as [mean|e] eqn:Hdiv.
  2: { eexists. split; [reflexivity|]. simpl.
       split_and!; [done|by left|apply Htime..|]. by intros. }
  rewrite add_and_commit_run. cbn [w_dbops set_w_dbops].
  destruct (db_fault (S (w_dbops w))) as [e|] eqn:Hcommit.
  { eexists. split; [reflexivity|]. simpl.
    split_and!; [done|by left|apply Htime..|]. by intros. }
  eexists. split; [reflexivity|]. simpl. rewrite Hr1.
  split_and!; [done| |apply Htime..|].
  - right. eexists. split; [reflexivity|].
    unfold UPSDynamicData_init. rewrite lookup_insert_eq. split.
    + rewrite dom_insert_L, dom_singleton_L. set_solver.
    + rewrite lookup_insert_ne by done. by rewrite lookup_singleton_eq.
  - intros m' _ _ _ _ _ ? [= <-]. eexists. split; [reflexivity|].
    unfold UPSDynamicData_init. rewrite lookup_insert_eq.
    by rewrite lookup_insert_eq.
Qed.

End PipelineProperties.

(** *** Stripping *)

Lemma lstrip_suffix (s : list ascii) : exists l, s = l ++ lstrip s.
Proof.
  induction s as [|c s [l IH]]; [by exists []|]. simpl.
  destruct (is_space c); [|by exists []].
  exists (c :: l). simpl. by rewrite <- IH.
Qed.

Lemma strip_infix (s : list ascii) : infix_of (strip s) s.
Proof.
  unfold strip, infix_of.
  destruct (lstrip_suffix s) as [l Hl].
  destruct (lstrip_suffix (rev (lstrip s))) as [r Hr].
  exists l, (rev r). rewrite Hl at 1. f_equal.
  rewrite <- (rev_involutive (lstrip s)), Hr at 1.
  by rewrite rev_app_distr.
Qed.

(** ** The properties on the scenarios *)

Section ScenarioProperties.

#[local] Existing Instance left_to_right.

(** C1 does not hold as stated: after a stall of the sampler the boundary
    jumps from 0:01:00 to 0:04:00, three minutes, not one. *)
Lemma stalled_flush_skips_minutes :
  next_save_time (ups_data_cache world_after_stall) = Some (at_second 60)
  ∧ (calculate_and_save_averages utc steady_device no_fault (at_second 185)
       world_after_stall).1 = Ok true
  ∧ next_save_time
      (ups_data_cache
         (calculate_and_save_averages utc steady_device no_fault
            (at_second 185) world_after_stall).2)
    = Some (at_second 240)
  ∧ instant (at_second 240) ≠ instant (at_second 60) + MINUTE.
Proof. repeat split; vm_compute; try reflexivity; discriminate. Qed.

(** The flush of 0:01:00 in the steady scenario. *)
Lemma flush_rederives_next_minute_witness :
  exists nst,
    next_save_time (ups_data_cache world_at_minute) = Some nst
    ∧ instant (get_next_minute utc (at_second 60)) = instant nst + MINUTE.
Proof.
  pose (w' := (calculate_and_save_averages utc steady_device no_fault
                 (at_second 60) world_at_minute).2).
  assert (calculate_and_save_averages utc steady_device no_fault
            (at_second 60) world_at_minute = (Ok true, w')) as Hrun.
  { vm_compute. reflexivity. }
  assert (next_save_time (ups_data_cache world_at_minute)
          = Some (at_second 60)) as Hboundary.
  { vm_compute. reflexivity. }
  destruct (flush_rederives_next_minute utc steady_device no_fault
              (at_second 60) world_at_minute w' Hrun)
    as (nst & averages & rec & tail & Hnst & Hle & _ & _ & _ & _ & _ & Hstep).
  exists nst. split; [exact Hnst|].
  rewrite Hboundary in Hnst. injection Hnst as <-.
  apply Hstep; vm_compute; reflexivity.
Defined.

(** C3 does not hold as stated: when the commit fails, the error is caught
    and the function answers [False], but the two buffered samples are
    still in the buffer. *)
Lemma failed_flush_keeps_samples :
  (calculate_and_save_averages_body utc steady_device locked_database
     (at_second 60) world_at_minute).1
  = Raise (ExternalError "database is locked")
  ∧ (calculate_and_save_averages utc steady_device locked_database
       (at_second 60) world_at_minute).1 = Ok false
  ∧ length (data (ups_data_cache
                    (calculate_and_save_averages utc steady_device
                       locked_database (at_second 60) world_at_minute).2))
    = 2%nat.
Proof. repeat split; vm_compute; try reflexivity; discriminate. Qed.

(** The failed commit of 0:01:00. *)
Lemma flush_error_keeps_buffer_witness :
  exists w',
    calculate_and_save_averages utc steady_device locked_database
      (at_second 60) world_at_minute = (Ok false, w')
    ∧ ups_dynamic_data w' = ups_dynamic_data world_at_minute
    ∧ data (ups_data_cache w') = data (ups_data_cache world_at_minute).
Proof.
  pose (w' := (calculate_and_save_averages_body utc steady_device
                 locked_database (at_second 60) world_at_minute).2).
  assert (calculate_and_save_averages_body utc steady_device locked_database
            (at_second 60) world_at_minute
          = (Raise (ExternalError "database is locked"), w')) as Hbody.
  { vm_compute. reflexivity. }
  destruct (flush_error_keeps_buffer utc steady_device locked_database
              _ _ _ _ Hbody) as (Hrun & Hrows & Hdata & _).
  exists w'. split; [exact Hrun|]. split; [exact Hrows|exact Hdata].
Defined.


(** The flush of 0:01:00 commits a record whose daily average is 0.0. *)
Lemma new_record_daily_average_is_zero_witness :
  exists w' dynamic_data tail,
    calculate_and_save_averages utc steady_device no_fault (at_second 60)
      world_at_minute = (Ok true, w')
    ∧ ups_dynamic_data w'
      = ups_dynamic_data world_at_minute ++ dynamic_data :: tail
    ∧ dynamic_data !! "ups_realpower_days" = Some (VFloat (Finite 0)).
Proof.
  pose (w' := (calculate_and_save_averages utc steady_device no_fault
                 (at_second 60) world_at_minute).2).
  assert (calculate_and_save_averages utc steady_device no_fault
            (at_second 60) world_at_minute = (Ok true, w')) as Hrun.
  { vm_compute. reflexivity. }
  destruct (proj2 (proj2 (new_record_daily_average_is_zero utc steady_device
                            no_fault)) _ _ _ Hrun)
    as (averages & rec & tail & Havg & Hrows & Hdays).
  exists w', rec, tail. split; [exact Hrun|]. split; [exact Hrows|].
  apply Hdays.
  assert (calculate_averages (ups_data_cache world_at_minute)
          ≫= (fun a => a !! "ups_realpower_days") = None) as Hnone.
  { vm_compute. reflexivity. }
  rewrite Havg in Hnone. exact Hnone.
Defined.

(** C2 does not hold as stated: an alarm reported by the first sample and
    absent from the second is a non-numeric field of the window whose most
    recently observed value is the alarm text, and the averages have NaN. *)
Lemma absent_in_last_sample_gives_nan :
  let buffered :=
    add utc (at_second 2) {["ups_status" := VStr "OL"]}
      (add utc (at_second 1)
         (<["ups_alarm" := VStr "Replace battery!"]>
            {["ups_status" := VStr "OL"]})
         (UPSDataCache_init 60)) in
  buffered_values "ups_alarm" (data buffered) = [VStr "Replace battery!"]
  ∧ calculate_averages buffered ≫= (fun a => a !! "ups_alarm")
    = Some (VFloat NaN).
Proof. split; vm_compute; reflexivity. Qed.

(** The two windows of the specification: 10, 20, 30 give 20.00 and "OL",
    "OL", "OB" give "OB". *)
Lemma averages_of_window_witness :
  let buffered :=
    add utc (at_second 3)
      (<["input_voltage" := VFloat (Finite 30)]> {["ups_status" := VStr "OB"]})
      (add utc (at_second 2)
         (<["input_voltage" := VFloat (Finite 20)]>
            {["ups_status" := VStr "OL"]})
         (add utc (at_second 1)
            (<["input_voltage" := VFloat (Finite 10)]>
               {["ups_status" := VStr "OL"]})
            (UPSDataCache_init 60))) in
  exists averages,
    calculate_averages buffered = Some averages
    ∧ averages !! "input_voltage" = Some (VFloat (Finite 20))
    ∧ averages !! "ups_status" = Some (VStr "OB").
Proof.
  cbv zeta.
  set (previous := add utc (at_second 2) _ _).
  set (d := <["input_voltage" := VFloat (Finite 30)]>
              {["ups_status" := VStr "OB"]} : gmap string pyval).
  assert (buffered_values "input_voltage"
            (data (add utc (at_second 3) d previous))
          = [VFloat (Finite 10); VFloat (Finite 20); VFloat (Finite 30)])
    as Hvoltage.
  { vm_compute. reflexivity. }
  assert (buffered_values "ups_status"
            (data (add utc (at_second 3) d previous))
          = [VStr "OL"; VStr "OL"; VStr "OB"]) as Hstatus.
  { vm_compute. reflexivity. }
  assert (Forall (fun p : datetime * gmap string pyval => reader_sample p.2)
                 (data (add utc (at_second 3) d previous))) as Hsamples.
  { apply (bool_decide_unpack _). vm_compute. reflexivity. }
  destruct (averages_of_window utc (at_second 3) d previous "input_voltage")
    as (averages & Havg & Hmean & _).
  { discriminate. }
  { rewrite Hvoltage. discriminate. }
  { exact Hsamples. }
  destruct (averages_of_window utc (at_second 3) d previous "ups_status")
    as (averages' & Havg' & _ & Hlast).
  { discriminate. }
  { rewrite Hstatus. discriminate. }
  { exact Hsamples. }
  rewrite Havg in Havg'. injection Havg' as <-.
  exists averages. split; [exact Havg|]. split.
  - rewrite Hmean.
    + vm_compute. reflexivity.
    + rewrite Hvoltage. repeat constructor.
  - rewrite Hlast.
    + vm_compute. reflexivity.
    + rewrite Hstatus. constructor. reflexivity.
Defined.

(** C4: the code against the claim. With a device that cannot be reached,
    three turns of the loop fail one after the other; the loop slept one
    second after each, where the claim has 2, 4 and 8 seconds. *)
Lemma failed_polls_sleep_one_second :
  let '(sleeps, failures, _) :=
    polling_thread utc dead_device no_fault
      [0; 1 * SECOND; 2 * SECOND] fresh_world in
  sleeps = [1; 1; 1] ∧ failures = 3 ∧ Z.min 300 (2 ^ failures) = 8.
Proof. vm_compute. repeat split. Qed.

(** C6 does not hold as stated: the guard remembers the last date only.
    Three checks in the first minute of day 1, of day 2 and, the clock
    having been set back, of day 1 again: the rollup runs twice for
    day 1. *)
Lemma daily_aggregation_repeats_after_clock_set_back :
  daily_aggregation_dates utc
    [at_second (86400 + 10); at_second (172800 + 5); at_second (86400 + 20)]
    (UPSDataCache_init 60) = [1; 2; 1]
  ∧ ¬ NoDup (daily_aggregation_dates utc
               [at_second (86400 + 10); at_second (172800 + 5);
                at_second (86400 + 20)]
               (UPSDataCache_init 60)).
Proof.
  assert (daily_aggregation_dates utc
            [at_second (86400 + 10); at_second (172800 + 5);
             at_second (86400 + 20)]
            (UPSDataCache_init 60) = [1; 2; 1]) as Hdates.
  { vm_compute. reflexivity. }
  split; [exact Hdates|]. rewrite Hdates. intros Hnodup.
  apply NoDup_cons in Hnodup as [Hnotin _]. apply Hnotin.
  right. left.
Qed.

(** Three checks, two of them in the first minute of day 1 and one in the
    first minute of day 2: one aggregation for each day. *)
Lemma daily_aggregation_once_per_date_witness :
  daily_aggregation_dates utc
    [at_second (86400 + 10); at_second (86400 + 20); at_second (172800 + 5)]
    (UPSDataCache_init 60) = [1; 2]
  ∧ NoDup (daily_aggregation_dates utc
             [at_second (86400 + 10); at_second (86400 + 20);
              at_second (172800 + 5)]
             (UPSDataCache_init 60)).
Proof.
  split; [vm_compute; reflexivity|].
  apply (daily_aggregation_once_per_date utc).
  vm_compute. repeat constructor; discriminate.
Defined.

(** The second creation of the dynamic model in a fresh process: the same
    class, and still one query of the device. *)
Lemma schema_derivation_memoized_witness :
  exists m w1,
    create_dynamic_model steady_device fresh_world = (Ok m, w1)
    ∧ create_dynamic_model steady_device w1 = (Ok m, w1)
    ∧ w_queries w1 = 1%nat.
Proof.
  pose (r := create_dynamic_model steady_device fresh_world).
  assert (r = (Ok (default (mkModel 0 "" ∅)
                           (match r.1 with Ok m => Some m | Raise _ => None end)),
               r.2)) as Hr.
  { vm_compute. reflexivity. }
  eexists _, r.2. split; [exact Hr|]. split.
  - exact (proj1 (proj2 (schema_derivation_memoized steady_device))
                 fresh_world r.2 _ Hr).
  - vm_compute. reflexivity.
Defined.

(** A device that reports a load of 0.5 % of 865 W and no power: the model
    has the power column, and the sample has 4.33 W, the product in
    binary64 being just above 4.325. *)
Lemma realpower_fields_always_present_witness :
  (exists m w1,
     create_dynamic_model light_load_device fresh_world = (Ok m, w1)
     ∧ columns m !! "ups_realpower" = Some Float)
  ∧ exists d w',
      get_ups_data light_load_device fresh_world = (Ok d, w')
      ∧ d !! "ups_realpower" = Some (VFloat (fl (433 # 100))).
Proof.
  split.
  - pose (r := create_dynamic_model light_load_device fresh_world).
    assert (r = (Ok (default (mkModel 0 "" ∅)
                       (match r.1 with Ok m => Some m | Raise _ => None end)),
                 r.2)) as Hr.
    { vm_compute. reflexivity. }
    eexists _, r.2. split; [exact Hr|].
    exact (proj1 (proj1 (realpower_fields_always_present light_load_device)
                        fresh_world r.2 _ eq_refl Hr)).
  - pose (pairs := [("ups.load", "0.5"); ("ups.realpower.nominal", "865");
                    ("ups.status", "OL")]).
    assert (falsy_str (_ups_name fresh_world) = false) as Hname.
    { vm_compute. reflexivity. }
    assert (falsy_str (_ups_host fresh_world) = false) as Hhost.
    { vm_compute. reflexivity. }
    assert (light_load_device (w_queries fresh_world) = Ok pairs) as Hq.
    { reflexivity. }
    assert (odict_get "ups.realpower" (variables_of_pairs pairs) = None)
      as Habsent.
    { vm_compute. reflexivity. }
    destruct (proj2 (realpower_fields_always_present light_load_device)
                fresh_world pairs Hname Hhost Hq Habsent)
      as (d & w' & Hrun & Hcomputed & _).
    exists d, w'. split; [exact Hrun|].
    pose (load_percent := fl (1 # 2)).
    pose (nominal_power := fl 865).
    assert (float_of_raw "ups.load" (variables_of_pairs pairs)
            = Ok load_percent) as Hload.
    { vm_compute. reflexivity. }
    assert (float_of_raw "ups.realpower.nominal" (variables_of_pairs pairs)
            = Ok nominal_power) as Hnominal.
    { vm_compute. reflexivity. }
    rewrite (Hcomputed load_percent nominal_power Hload Hnominal).
    vm_compute. reflexivity.
Defined.

(** *** Further properties on the scenarios *)

(** The reader on the steady device: a sample with a power. *)
Lemma reader_outcome_witness :
  exists d w',
    get_ups_data steady_device fresh_world = (Ok d, w')
    ∧ is_Some (d !! "ups_realpower").
Proof.
  pose (r := get_ups_data steady_device fresh_world).
  assert (r = (Ok (default ∅ (match r.1 with Ok d => Some d | Raise _ => None end)),
               r.2)) as Hr.
  { vm_compute. reflexivity. }
  eexists _, r.2. split; [exact Hr|].
  exact (proj1 (reader_outcome steady_device _ _ _ Hr)).
Defined.

(** A process that was never configured reads the fixed sample. *)
Lemma unconfigured_reader_witness :
  exists d,
    get_ups_data steady_device (initial_world 60) = (Ok d, initial_world 60)
    ∧ d !! "ups_status" = Some (VStr "ERROR").
Proof.
  assert (falsy_str (_ups_name (initial_world 60)) = true
          ∨ falsy_str (_ups_host (initial_world 60)) = true) as Hf.
  { left. reflexivity. }
  destruct (unconfigured_reader steady_device (initial_world 60) Hf)
    as (d & Hrun & Hstatus & _).
  exists d. split; [exact Hrun|exact Hstatus].
Defined.

(** After the flush of 0:01:00, a call at 0:01:01 with a new sample does
    not flush. *)
Lemma no_second_flush_before_boundary_witness :
  exists w' w'',
    calculate_and_save_averages utc steady_device no_fault (at_second 60)
      world_at_minute = (Ok true, w')
    ∧ calculate_and_save_averages utc steady_device no_fault (at_second 61)
        (set_ups_data_cache
           (add utc (at_second 61) {["ups_status" := VStr "OL"]}
                (ups_data_cache w')) w')
      = (Ok false, w'')
    ∧ ups_dynamic_data w'' = ups_dynamic_data w'.
Proof.
  pose (w' := (calculate_and_save_averages utc steady_device no_fault
                 (at_second 60) world_at_minute).2).
  assert (calculate_and_save_averages utc steady_device no_fault
            (at_second 60) world_at_minute = (Ok true, w')) as Hrun.
  { vm_compute. reflexivity. }
  assert (instant (at_second 61)
          < instant (get_next_minute utc (at_second 60))) as Hlater.
  { vm_compute. reflexivity. }
  destruct (no_second_flush_before_boundary utc steady_device no_fault
              (at_second 60) (at_second 61) world_at_minute w'
              {["ups_status" := VStr "OL"]} Hrun Hlater)
    as (w'' & Hsecond & Hrows & _).
  exists w', w''. split; [exact Hrun|]. split; [exact Hsecond|exact Hrows].
Defined.

(** The first call of [save_ups_data] in a fresh process. *)
Lemma save_ups_data_keeps_buffer_in_step_witness :
  buffer_in_step (ups_data_cache fresh_world)
  ∧ buffer_in_step
      (ups_data_cache
         (save_ups_data utc steady_device no_fault (59 * SECOND)
                        fresh_world).2).
Proof.
  assert (buffer_in_step (ups_data_cache fresh_world)) as Hstep.
  { left. split; reflexivity. }
  split; [exact Hstep|].
  exact (save_ups_data_keeps_buffer_in_step utc steady_device no_fault
           (59 * SECOND) fresh_world _ _ Hstep
           (surjective_pairing
              (save_ups_data utc steady_device no_fault (59 * SECOND)
                             fresh_world))).
Defined.


(** The model of a fresh process, asked for twice. *)
Lemma get_ups_model_is_registry_model_witness :
  exists m w1,
    get_ups_model steady_device fresh_world = (Ok m, w1)
    ∧ get_ups_model steady_device w1 = (Ok m, w1)
    ∧ create_dynamic_model steady_device w1 = (Ok m, w1).
Proof.
  pose (r := get_ups_model steady_device fresh_world).
  assert (r = (Ok (default (mkModel 0 "" ∅)
                     (match r.1 with Ok m => Some m | Raise _ => None end)),
               r.2)) as Hr.
  { vm_compute. reflexivity. }
  assert (_UPSData fresh_world = None) as Hnone.
  { reflexivity. }
  eexists _, r.2. split; [exact Hr|].
  exact (get_ups_model_is_registry_model steady_device fresh_world r.2 _
           Hnone Hr).
Defined.

(** The aggregation of the first minute of day 1 over the row of 1:00:00,
    whose hourly average is 100.5. *)
Lemma daily_aggregation_row_witness :
  exists w' r,
    aggregate_daily_data utc steady_device no_fault (at_second (86400 + 5))
      world_after_hour = (Ok tt, w')
    ∧ ups_dynamic_data w' = ups_dynamic_data world_after_hour ++ [r]
    ∧ r !! "timestamp_tz" = Some (VDatetime (at_second 0))
    ∧ r !! "ups_realpower_days" = Some (VFloat (Finite (201 # 2))).
Proof.
  pose (m := default (mkModel 0 "" ∅) (_UPSData world_after_hour)).
  assert (_UPSData world_after_hour = Some m) as Hm.
  { vm_compute. reflexivity. }
  assert (no_fault (w_dbops world_after_hour) = None) as Hq.
  { reflexivity. }
  assert (no_fault (S (w_dbops world_after_hour)) = None) as Hc.
  { reflexivity. }
  pose proof (daily_aggregation_row utc steady_device no_fault
                (at_second (86400 + 5)) world_after_hour m Hm Hq Hc) as H.
  cbv zeta in H. destruct H as (w' & Hrun & Hrow).
  assert (omap (fun r : record => non_null (r !! "ups_realpower_hrs"))
            (List.filter
               (of_day_before
                  (wall (astimezone utc (at_second (86400 + 5)))
                   - wall (astimezone utc (at_second (86400 + 5))) mod DAY
                   + wall (astimezone utc (at_second (86400 + 5))) mod SECOND))
               (ups_dynamic_data world_after_hour))
          = [VFloat (Finite (201 # 2))]) as Hhours.
  { vm_compute. reflexivity. }
  rewrite Hhours in Hrow.
  assert (sqlite_avg [VFloat (Finite (201 # 2))] = Finite (201 # 2)) as Havg.
  { vm_compute. reflexivity. }
  rewrite Havg in Hrow.
  assert (is_nan (Finite (201 # 2))
          || negb (truthy (VFloat (Finite (201 # 2)))) = false) as Ht.
  { vm_compute. reflexivity. }
  rewrite Ht in Hrow. destruct Hrow as (r & Hrows & _ & Hts & Hdays).
  exists w', r. split; [exact Hrun|]. split; [exact Hrows|]. split.
  - rewrite Hts. vm_compute. reflexivity.
  - rewrite Hdays. vm_compute. reflexivity.
Defined.

(** The column of [device.usb_version] is not recognised. *)
Lemma is_static_field_of_column_witness :
  "device.usb_version" ∈ STATIC_FIELDS
  ∧ is_static_field (db_key "device.usb_version") = false.
Proof.
  assert ("device.usb_version" ∈ STATIC_FIELDS) as Hin.
  { apply (bool_decide_unpack _). vm_compute. reflexivity. }
  split; [exact Hin|].
  etransitivity;
    [exact (proj1 (is_static_field_of_column "device.usb_version" Hin))|].
  vm_compute. reflexivity.
Defined.


(** The message of an overload, with ASCII lowering and stripping. *)
Lemma event_type_never_ups_branches_witness :
  get_event_type (map lower) strip "UPS ups@localhost: UPS overloaded"
  = "UNKNOWN"
  ∧ get_event_type (map lower) strip "UPS ups@localhost: UPS overloaded"
    ∉ ["OVERLOAD"; "FAULT"; "OFF"].
Proof.
  split; [vm_compute; reflexivity|].
  exact (proj1 (event_type_never_ups_branches (map lower) strip strip_infix
                  "UPS ups@localhost: UPS overloaded")).
Defined.

(** The flush of 0:02:00 copies the status and the load; the battery
    charge, which is a column, too. *)
Lemma flush_copies_schema_fields_witness :
  exists w' dynamic_data tail,
    calculate_and_save_averages utc steady_device no_fault (at_second 120)
      world_at_second_minute = (Ok true, w')
    ∧ ups_dynamic_data w'
      = ups_dynamic_data world_at_second_minute ++ dynamic_data :: tail
    ∧ dynamic_data !! "ups_status" = Some (VStr "OL")
    ∧ dynamic_data !! "ups_load" = Some (VFloat (Finite 20)).
Proof.
  pose (w' := (calculate_and_save_averages utc steady_device no_fault
                 (at_second 120) world_at_second_minute).2).
  pose (m := default (mkModel 0 "" ∅) (_UPSData world_at_second_minute)).
  assert (_UPSData world_at_second_minute = Some m) as Hm.
  { vm_compute. reflexivity. }
  assert (calculate_and_save_averages utc steady_device no_fault
            (at_second 120) world_at_second_minute = (Ok true, w')) as Hrun.
  { vm_compute. reflexivity. }
  destruct (flush_copies_schema_fields utc steady_device no_fault
              (at_second 120) world_at_second_minute w' m Hm Hrun)
    as (averages & rec & tail & Havg & Hrows & Hcopied & _).
  exists w', rec, tail. split; [exact Hrun|]. split; [exact Hrows|].
  assert (calculate_averages (ups_data_cache world_at_second_minute)
          ≫= (fun a => a !! "ups_status") = Some (VStr "OL")) as Hstatus.
  { vm_compute. reflexivity. }
  assert (calculate_averages (ups_data_cache world_at_second_minute)
          ≫= (fun a => a !! "ups_load") = Some (VFloat (Finite 20))) as Hload.
  { vm_compute. reflexivity. }
  rewrite Havg in Hstatus, Hload.
  split.
  - apply Hcopied.
    + apply (bool_decide_unpack _). vm_compute. reflexivity.
    + discriminate.
    + exact Hstatus.
  - apply Hcopied.
    + apply (bool_decide_unpack _). vm_compute. reflexivity.
    + discriminate.
    + exact Hload.
Defined.

End ScenarioProperties.
